(** * Yangson: the instance zipper and XPath node-sets

    A shallow embedding of [yangson/instance.py] (crumbs, the [Instance]
    zipper, instance selectors) and of [yangson/nodeset.py] (node-set union
    and the XPath comparison methods), together with the Python built-ins
    these two files rely on.

    Layout: Python values and built-ins; the zipper; a store model of
    [Instance.member] with explicit object identities; node-sets; then the
    theorems. *)

From Stdlib Require Import ZArith Ascii String List Floats.
From stdpp Require Import base option list gmap strings pretty.

Set Default Proof Using "Type".
Local Open Scope Z_scope.

(** ** Python dictionaries

    A [dict] keeps its keys in insertion order, assigning to an existing key
    keeps the key's position, and [pop] drops the entry.  The association
    list below records exactly that; a well-formed dictionary has no repeated
    key. *)
Module PyDict.
Section ops.
Context {K V : Type} `{EqDecision K}.

(** [d[k]] / [d.get(k)] / [k in d] *)
Fixpoint get (k : K) (d : list (K * V)) : option V :=
  match d with
  | [] => None
  | (k', v) :: d' => if decide (k = k') then Some v else get k d'
  end.

(** [d[k] = v] *)
Fixpoint setitem (k : K) (v : V) (d : list (K * V)) : list (K * V) :=
  match d with
  | [] => [(k, v)]
  | (k', v') :: d' =>
      if decide (k = k') then (k', v) :: d' else (k', v') :: setitem k v d'
  end.

(** the dictionary left by [d.pop(k)] *)
Fixpoint remove (k : K) (d : list (K * V)) : list (K * V) :=
  match d with
  | [] => []
  | (k', v') :: d' =>
      if decide (k = k') then d' else (k', v') :: remove k d'
  end.

(** [d.pop(k)]: the value and the remaining dictionary, [None] for
    [KeyError]. *)
Definition pop (k : K) (d : list (K * V)) : option (V * list (K * V)) :=
  match get k d with
  | Some v => Some (v, remove k d)
  | None => None
  end.

Definition keys (d : list (K * V)) : list K := d.*1.
Definition values (d : list (K * V)) : list V := d.*2.
End ops.
End PyDict.

(** ** Values

    [Value = Any] in the source; the instance data are JSON values.  Python's
    [None] stands both for JSON null and for "no value". *)
#[warnings="-register-all"]
Inductive Value : Type :=
  | VNone
  | VBool (b : bool)
  | VInt (z : Z)
  | VFloat (f : float)
  | VStr (s : string)
  | VArr (l : list Value)
  | VObj (d : list (string * Value)).

(** ** Crumbs, instances, exceptions *)

(** [MemberCrumb.object] is annotated [Object], but [new_member] stores the
    receiver's value there whatever it is, so the field holds a [Value]. *)
Inductive Crumb : Type :=
  | MemberCrumb (name : string) (object : Value)
  | EntryCrumb (before after : list Value).

Record Instance : Type := mkInstance { value : Value; trace : list Crumb }.

(** The exceptions of [instance.py] carry the failing instance; the built-in
    ones are those the code's operations can raise. *)
Inductive exn : Type :=
  | IndexError
  | KeyError
  | TypeError
  | AttributeError
  | ValueError
  | OverflowError
  | NonexistentInstance (inst : Instance) (text : string)
  | InstanceTypeError (inst : Instance) (text : string)
  | DuplicateMember (inst : Instance) (name : string).

Inductive result (A : Type) : Type :=
  | Ok (a : A)
  | Raise (e : exn).
Arguments Ok {A} a.
Arguments Raise {A} e.

#[global] Instance result_ret : MRet result := fun A a => Ok a.
#[global] Instance result_bind : MBind result := fun A B f m =>
  match m with
  | Ok a => f a
  | Raise e => Raise e
  end.

Definition is_ok {A} (r : result A) : bool :=
  match r with Ok _ => true | Raise _ => false end.

(** ** Python built-ins *)
Module Py.

(** *** Sequences: [l[i]], [l[:i]], [l[i:]] with Python's negative
    indices. *)
Definition norm_index (len i : Z) : Z := if i <? 0 then i + len else i.

Definition getitem {A} (l : list A) (i : Z) : result A :=
  let j := norm_index (Z.of_nat (length l)) i in
  if (0 <=? j) && (j <? Z.of_nat (length l)) then
    match l !! Z.to_nat j with
    | Some x => Ok x
    | None => Raise IndexError
    end
  else Raise IndexError.

Definition clamp (len i : Z) : nat :=
  Z.to_nat (Z.min (Z.max (norm_index len i) 0) len).

Definition slice_to {A} (l : list A) (i : Z) : list A :=
  take (clamp (Z.of_nat (length l)) i) l.

Definition slice_from {A} (l : list A) (i : Z) : list A :=
  drop (clamp (Z.of_nat (length l)) i) l.

(** *** Strings *)
Definition chars (s : string) : list Value :=
  (fun c => VStr (String c EmptyString)) <$> list_ascii_of_string s.

(** [s.find(sub)]: index of the first occurrence. *)
Fixpoint find (sub s : string) : option nat :=
  if String.prefix sub s then Some 0%nat
  else match s with
       | EmptyString => None
       | String _ s' => S <$> find sub s'
       end.

(** [s.partition(sep)] for a non-empty [sep]. *)
Definition partition (sep s : string) : string * string * string :=
  match find sep s with
  | Some i =>
      (String.substring 0 i s, sep,
       String.substring (i + String.length sep)
         (String.length s - (i + String.length sep)) s)
  | None => (s, EmptyString, EmptyString)
  end.

(** truth value of a string *)
Definition str_bool (s : string) : bool :=
  match s with EmptyString => false | _ => true end.

Definition as_str (v : Value) : option string :=
  match v with VStr s => Some s | _ => None end.

(** [sep.join(items)]: [TypeError] unless every item is a [str]. *)
Definition join (sep : string) (items : list Value) : result string :=
  match mapM as_str items with
  | Some l => Ok (String.concat sep l)
  | None => Raise TypeError
  end.

(** *** Numbers *)
Definition bool_to_Z (b : bool) : Z := if b then 1 else 0.

(** the binary64 nearest to an integer (ties to even) *)
Definition Z_to_float (z : Z) : float :=
  SF2Prim (binary_normalize prec emax z 0 false).

(** [float(z)] for an [int]: [OverflowError] past the largest double. *)
Definition float_of_int (z : Z) : result float :=
  let f := Z_to_float z in
  if PrimFloat.is_infinity f then Raise OverflowError else Ok f.

(** [f == z]: Python compares a float with an int exactly. *)
Definition float_eq_int (f : float) (z : Z) : bool :=
  match Prim2SF f with
  | S754_zero _ => z =? 0
  | S754_finite s m e =>
      let mz := if s then Z.neg m else Z.pos m in
      if 0 <=? e then z =? mz * 2 ^ e else z * 2 ^ (- e) =? mz
  | _ => false
  end.

Definition num_view (v : Value) : option (Z + float) :=
  match v with
  | VBool b => Some (inl (bool_to_Z b))
  | VInt z => Some (inl z)
  | VFloat f => Some (inr f)
  | _ => None
  end.

Definition num_eq (x y : Z + float) : bool :=
  match x, y with
  | inl a, inl b => a =? b
  | inr f, inr g => PrimFloat.eqb f g
  | inl a, inr g => float_eq_int g a
  | inr f, inl b => float_eq_int f b
  end.

(** *** [a == b] on values: numbers (booleans included) compare
    numerically, lists element by element, dictionaries key by key whatever
    the order. The interpreter's identity shortcut inside containers (which
    only matters for NaN) is not modelled. *)
Fixpoint eq (a b : Value) {struct a} : bool :=
  match a with
  | VNone => match b with VNone => true | _ => false end
  | VBool _ | VInt _ | VFloat _ =>
      match num_view a, num_view b with
      | Some x, Some y => num_eq x y
      | _, _ => false
      end
  | VStr s => match b with VStr t => String.eqb s t | _ => false end
  | VArr l1 =>
      match b with
      | VArr l2 =>
          (fix go (l1 l2 : list Value) {struct l1} : bool :=
             match l1, l2 with
             | [], [] => true
             | x :: l1', y :: l2' => eq x y && go l1' l2'
             | _, _ => false
             end) l1 l2
      | _ => false
      end
  | VObj d1 =>
      match b with
      | VObj d2 =>
          Nat.eqb (length d1) (length d2) &&
          (fix go (d : list (string * Value)) {struct d} : bool :=
             match d with
             | [] => true
             | (k, x) :: d' =>
                 match PyDict.get k d2 with
                 | Some y => eq x y
                 | None => false
                 end && go d'
             end) d1
      | _ => false
      end
  end.

Definition ne (a b : Value) : bool := negb (eq a b).

(** [l.index(x)] on a list: position of the first equal element. *)
Fixpoint list_index (x : Value) (l : list Value) : option nat :=
  match l with
  | [] => None
  | y :: l' => if eq y x then Some 0%nat else S <$> list_index x l'
  end.

(** [name in v] for a string [name]. *)
Definition contains (name : string) (v : Value) : result bool :=
  match v with
  | VObj d => Ok (bool_decide (is_Some (PyDict.get name d)))
  | VArr l => Ok (bool_decide (is_Some (list_index (VStr name) l)))
  | VStr s => Ok (bool_decide (is_Some (find name s)))
  | VNone | VBool _ | VInt _ | VFloat _ => Raise TypeError
  end.

(** [v.copy()]: dictionaries and lists have it. *)
Definition copy (v : Value) : result Value :=
  match v with
  | VObj d => Ok (VObj d)
  | VArr l => Ok (VArr l)
  | _ => Raise AttributeError
  end.

(** [v.pop(name)] for a string [name]: the popped value and what is left of
    [v]. *)
Definition pop (name : string) (v : Value) : result (Value * Value) :=
  match v with
  | VObj d =>
      match PyDict.pop name d with
      | Some (x, d') => Ok (x, VObj d')
      | None => Raise KeyError
      end
  | VArr _ => Raise TypeError
  | _ => Raise AttributeError
  end.

(** [v[name] = x] for a string [name]. *)
Definition setitem (name : string) (x : Value) (v : Value) : result Value :=
  match v with
  | VObj d => Ok (VObj (PyDict.setitem name x d))
  | _ => Raise TypeError
  end.

(** [v[k]] for a string [k]. *)
Definition getitem_str (v : Value) (k : string) : result Value :=
  match v with
  | VObj d =>
      match PyDict.get k d with
      | Some x => Ok x
      | None => Raise KeyError
      end
  | _ => Raise TypeError
  end.

(** [v[i]] for an integer [i]. *)
Definition getitem_int (v : Value) (i : Z) : result Value :=
  match v with
  | VArr l => getitem l i
  | VStr s => getitem (chars s) i
  | VObj _ => Raise KeyError
  | VNone | VBool _ | VInt _ | VFloat _ => Raise TypeError
  end.

(** [v.index(x)] *)
Definition index (v x : Value) : result Z :=
  match v with
  | VArr l =>
      match list_index x l with
      | Some i => Ok (Z.of_nat i)
      | None => Raise ValueError
      end
  | VStr s =>
      match x with
      | VStr sub =>
          match find sub s with
          | Some i => Ok (Z.of_nat i)
          | None => Raise ValueError
          end
      | _ => Raise TypeError
      end
  | _ => Raise AttributeError
  end.

(** [for x in v] *)
Definition iter (v : Value) : result (list Value) :=
  match v with
  | VArr l => Ok l
  | VStr s => Ok (chars s)
  | VObj d => Ok (VStr <$> PyDict.keys d)
  | VNone | VBool _ | VInt _ | VFloat _ => Raise TypeError
  end.

End Py.

(** [try: m except ...: h]: the handler [h] picks the exceptions it catches. *)
Definition try_except {A} (m : result A) (h : exn -> option (result A))
  : result A :=
  match m with
  | Ok a => Ok a
  | Raise e => default (Raise e) (h e)
  end.

(** ** instance.py *)
Module Zipper.

(** *** Crumbs *)
Definition pointer_fragment (c : Crumb) : Value :=
  match c with
  | MemberCrumb name _ => VStr name
  | EntryCrumb before _ => VInt (Z.of_nat (length before))
  end.

(** [res = self.object.copy(); res[self.name] = value] for a member crumb,
    [self.before + [value] + self.after] for an entry crumb. *)
Definition zip (c : Crumb) (v : Value) : result Value :=
  match c with
  | MemberCrumb name obj => res ← Py.copy obj; Py.setitem name v res
  | EntryCrumb before after => Ok (VArr (before ++ [v] ++ after))
  end.

(** attribute access on a crumb: [AttributeError] on the other class *)
Definition cr_object (c : Crumb) : result Value :=
  match c with
  | MemberCrumb _ obj => Ok obj
  | EntryCrumb _ _ => Raise AttributeError
  end.
Definition cr_name (c : Crumb) : result string :=
  match c with
  | MemberCrumb name _ => Ok name
  | EntryCrumb _ _ => Raise AttributeError
  end.
Definition cr_before (c : Crumb) : result (list Value) :=
  match c with
  | EntryCrumb before _ => Ok before
  | MemberCrumb _ _ => Raise AttributeError
  end.
Definition cr_after (c : Crumb) : result (list Value) :=
  match c with
  | EntryCrumb _ after => Ok after
  | MemberCrumb _ _ => Raise AttributeError
  end.

(** *** Instance *)

(** The loop of [namespace] over [reversed(self.trace)]; falling off the
    end returns Python's [None]. *)
Fixpoint namespace_loop (crs : list Crumb) : option string :=
  match crs with
  | [] => None
  | MemberCrumb name _ :: rest =>
      let '(p, s, _) := Py.partition ":" name in
      if Py.str_bool s then Some p else namespace_loop rest
  | EntryCrumb _ _ :: rest => namespace_loop rest
  end.

Definition namespace (self : Instance) : option string :=
  namespace_loop (rev (trace self)).

(** [self.trace[-1]] *)
Definition crumb (self : Instance) : result Crumb :=
  Py.getitem (trace self) (-1).

(** [self.trace[:-1] + [crumb]] *)
Definition _replace_crumb (self : Instance) (c : Crumb) : list Crumb :=
  Py.slice_to (trace self) (-1) ++ [c].

Definition pointer (self : Instance) : result string :=
  s ← Py.join "/" (pointer_fragment <$> trace self); Ok ("/" +:+ s).

Definition update (self : Instance) (newval : Value) : Instance :=
  mkInstance newval (trace self).

Definition up (self : Instance) : result Instance :=
  try_except
    (cr ← crumb self;
     v ← zip cr (value self);
     Ok (mkInstance v (Py.slice_to (trace self) (-1))))
    (fun e => match e with
              | IndexError => Some (Raise (NonexistentInstance self "up of top"))
              | _ => None
              end).

Definition member (self : Instance) (name : string) : result Instance :=
  obj ← Py.copy (value self);
  try_except
    ('(v, obj') ← Py.pop name obj;
     Ok (mkInstance v (trace self ++ [MemberCrumb name obj'])))
    (fun e => match e with
              | TypeError =>
                  Some (Raise (InstanceTypeError self "member of non-object"))
              | KeyError =>
                  Some (Raise (NonexistentInstance self ("member " +:+ name)))
              | _ => None
              end).

Definition new_member (self : Instance) (name : string) (v : Value)
  : result Instance :=
  dup ← Py.contains name (value self);
  if dup : bool then Raise (DuplicateMember self name)
  else Ok (mkInstance v (trace self ++ [MemberCrumb name (value self)])).

Definition sibling (self : Instance) (name : string) : result Instance :=
  try_except
    (cr ← crumb self;
     o ← cr_object cr;
     obj ← Py.copy o;
     '(newval, obj') ← Py.pop name obj;
     crname ← cr_name cr;
     obj'' ← Py.setitem crname (value self) obj';
     Ok (mkInstance newval (_replace_crumb self (MemberCrumb name obj''))))
    (fun e => match e with
              | KeyError =>
                  Some (Raise (NonexistentInstance self ("member " +:+ name)))
              | IndexError =>
                  Some (Raise (InstanceTypeError self "sibling of non-member"))
              | _ => None
              end).

Definition entry (self : Instance) (index : Z) : result Instance :=
  match value self with
  | VArr val =>
      try_except
        (v ← Py.getitem val index;
         Ok (mkInstance v
               (trace self ++
                [EntryCrumb (Py.slice_to val index)
                            (Py.slice_from val (index + 1))])))
        (fun e => match e with
                  | IndexError =>
                      Some (Raise (NonexistentInstance self
                                     ("entry " +:+ pretty index)))
                  | _ => None
                  end)
  | _ => Raise (InstanceTypeError self "entry of non-array")
  end.

Definition first_entry (self : Instance) : result Instance :=
  match value self with
  | VArr val =>
      try_except
        (v ← Py.getitem val 0;
         Ok (mkInstance v
               (trace self ++ [EntryCrumb [] (Py.slice_from val 1)])))
        (fun e => match e with
                  | IndexError =>
                      Some (Raise (NonexistentInstance self "first of empty"))
                  | _ => None
                  end)
  | _ => Raise (InstanceTypeError self "first entry of non-array")
  end.

Definition last_entry (self : Instance) : result Instance :=
  match value self with
  | VArr val =>
      try_except
        (v ← Py.getitem val (-1);
         Ok (mkInstance v
               (trace self ++ [EntryCrumb (Py.slice_to val (-1)) []])))
        (fun e => match e with
                  | IndexError =>
                      Some (Raise (NonexistentInstance self "last of empty"))
                  | _ => None
                  end)
  | _ => Raise (InstanceTypeError self "last entry of non-array")
  end.

Definition next (self : Instance) : result Instance :=
  try_except
    (cr ← crumb self;
     after ← cr_after cr;
     v ← Py.getitem after 0;
     before ← cr_before cr;
     Ok (mkInstance v
           (_replace_crumb self
              (EntryCrumb (before ++ [value self]) (Py.slice_from after 1)))))
    (fun e => match e with
              | IndexError =>
                  Some (Raise (NonexistentInstance self "next of last"))
              | AttributeError =>
                  Some (Raise (InstanceTypeError self "next of non-entry"))
              | _ => None
              end).

Definition previous (self : Instance) : result Instance :=
  try_except
    (cr ← crumb self;
     before ← cr_before cr;
     v ← Py.getitem before (-1);
     after ← cr_after cr;
     Ok (mkInstance v
           (_replace_crumb self
              (EntryCrumb (Py.slice_to before (-1)) ([value self] ++ after)))))
    (fun e => match e with
              | IndexError =>
                  Some (Raise (NonexistentInstance self "previous of first"))
              | AttributeError =>
                  Some (Raise (InstanceTypeError self "previous of non-entry"))
              | _ => None
              end).

Definition insert_before (self : Instance) (v : Value) : result Instance :=
  try_except
    (cr ← crumb self;
     before ← cr_before cr;
     after ← cr_after cr;
     Ok (mkInstance v
           (_replace_crumb self (EntryCrumb before ([value self] ++ after)))))
    (fun e => match e with
              | AttributeError | IndexError =>
                  Some (Raise (InstanceTypeError self "insert before non-entry"))
              | _ => None
              end).

Definition insert_after (self : Instance) (v : Value) : result Instance :=
  try_except
    (cr ← crumb self;
     before ← cr_before cr;
     after ← cr_after cr;
     Ok (mkInstance v
           (_replace_crumb self (EntryCrumb (before ++ [value self]) after))))
    (fun e => match e with
              | AttributeError | IndexError =>
                  Some (Raise (InstanceTypeError self "insert after non-entry"))
              | _ => None
              end).

End Zipper.

(** *** Instance selectors and [Instance.peek] *)
Inductive InstanceSelector : Type :=
  | MemberName (name : string)
  | EntryIndex (index : Z)
  | EntryValue (value : Value)
  | EntryKeys (keys : list (string * Value)).

Module Selector.

(** The inner loop of [EntryKeys.peek_step]:
    [for k in self.keys: if en[k] != self.keys[k]: flag = False; break]; the
    result is [flag]. *)
Fixpoint keys_loop (en : Value) (keys : list (string * Value))
    (ks : list string) : result bool :=
  match ks with
  | [] => Ok true
  | k :: rest =>
      x ← Py.getitem_str en k;
      match PyDict.get k keys with
      | None => Raise KeyError
      | Some y => if Py.ne x y then Ok false else keys_loop en keys rest
      end
  end.

(** [for en in arr: ...; if flag: return en]; falling off the end returns
    [None]. *)
Fixpoint entries_loop (keys : list (string * Value)) (ens : list Value)
  : result Value :=
  match ens with
  | [] => Ok VNone
  | en :: rest =>
      flag ← keys_loop en keys (PyDict.keys keys);
      if flag : bool then Ok en else entries_loop keys rest
  end.

Definition peek_step (sel : InstanceSelector) (v : Value) : result Value :=
  match sel with
  | MemberName name =>
      (* obj.get(self.name) *)
      match v with
      | VObj d => Ok (default VNone (PyDict.get name d))
      | _ => Raise AttributeError
      end
  | EntryIndex index =>
      try_except (Py.getitem_int v index)
        (fun e => match e with IndexError => Some (Ok VNone) | _ => None end)
  | EntryValue x =>
      try_except (i ← Py.index v x; Py.getitem_int v i)
        (fun e => match e with ValueError => Some (Ok VNone) | _ => None end)
  | EntryKeys keys =>
      ens ← Py.iter v; entries_loop keys ens
  end.

(** [val = self.value; for sel in ii: val = sel.peek_step(val)] *)
Fixpoint peek_loop (val : Value) (ii : list InstanceSelector)
  : result Value :=
  match ii with
  | [] => Ok val
  | sel :: rest => val' ← peek_step sel val; peek_loop val' rest
  end.

Definition peek (self : Instance) (ii : list InstanceSelector)
  : result Value :=
  peek_loop (value self) ii.

End Selector.

(** ** A store model of [Instance.member]

    Python objects are shared by reference: [self.value] is the very
    dictionary the caller holds.  To state that [member] leaves its receiver
    alone, this module runs the method over an explicit store in which
    dictionaries, lists, crumbs and instances live at locations, and
    [d.pop(k)] updates the dictionary in place. *)
Module Store.

Definition loc := positive.

(** A Python reference: an immutable scalar, or the address of an object. *)
Inductive ref : Type :=
  | RNone
  | RBool (b : bool)
  | RInt (z : Z)
  | RFloat (f : float)
  | RStr (s : string)
  | RLoc (l : loc).

Inductive obj : Type :=
  | ODict (d : list (string * ref))
  | OList (l : list ref)
  | OMemberCrumb (name : string) (object : ref)
  | OEntryCrumb (before after : ref)
  | OInstance (value trace : ref).

Inductive exn : Type :=
  | AttributeError
  | TypeError
  | KeyError
  | NonexistentInstance (inst : ref) (text : string)
  | InstanceTypeError (inst : ref) (text : string).

Abbreviation store := (gmap loc obj).

(** Computations that read and write the store and may raise. *)
Definition M (A : Type) : Type := store -> (exn + A) * store.

Definition ret {A} (a : A) : M A := fun σ => (inr a, σ).
Definition raise {A} (e : exn) : M A := fun σ => (inl e, σ).
Definition bind {A B} (m : M A) (k : A -> M B) : M B := fun σ =>
  match m σ with
  | (inr a, σ') => k a σ'
  | (inl e, σ') => (inl e, σ')
  end.
Definition try_except {A} (m : M A) (h : exn -> option (M A)) : M A :=
  fun σ =>
    match m σ with
    | (inr a, σ') => (inr a, σ')
    | (inl e, σ') =>
        match h e with
        | Some m' => m' σ'
        | None => (inl e, σ')
        end
    end.

Notation "x <- m ;; k" := (bind m (fun x => k))
  (at level 100, m at next level, right associativity).

(** A new object gets an address no object has yet. *)
Definition alloc (o : obj) : M ref := fun σ =>
  let l := fresh (dom σ) in (inr (RLoc l), <[l := o]> σ).

Definition deref (r : ref) : M (option obj) := fun σ =>
  match r with
  | RLoc l => (inr (σ !! l), σ)
  | _ => (inr None, σ)
  end.

Definition write (l : loc) (o : obj) : M unit := fun σ =>
  (inr tt, <[l := o]> σ).

(** [r.value], [r.trace] *)
Definition getattr_value (r : ref) : M ref :=
  o <- deref r ;;
  match o with
  | Some (OInstance v _) => ret v
  | _ => raise AttributeError
  end.
Definition getattr_trace (r : ref) : M ref :=
  o <- deref r ;;
  match o with
  | Some (OInstance _ t) => ret t
  | _ => raise AttributeError
  end.

(** [r.copy()]: a new dictionary (or list) with the same entries. *)
Definition copy (r : ref) : M ref :=
  o <- deref r ;;
  match o with
  | Some (ODict d) => alloc (ODict d)
  | Some (OList l) => alloc (OList l)
  | _ => raise AttributeError
  end.

(** [r.pop(name)]: removes the entry from the dictionary at [r]. *)
Definition pop (r : ref) (name : string) : M ref :=
  o <- deref r ;;
  match r, o with
  | RLoc l, Some (ODict d) =>
      match PyDict.pop name d with
      | Some (x, d') => _ <- write l (ODict d') ;; ret x
      | None => raise KeyError
      end
  | _, Some (OList _) => raise TypeError
  | _, _ => raise AttributeError
  end.

(** [a + b] on lists: a new list. *)
Definition list_add (a b : ref) : M ref :=
  oa <- deref a ;;
  ob <- deref b ;;
  match oa, ob with
  | Some (OList la), Some (OList lb) => alloc (OList (la ++ lb))
  | _, _ => raise TypeError
  end.

Definition member (self : ref) (name : string) : M ref :=
  v <- getattr_value self ;;
  obj <- copy v ;;
  try_except
    (x <- pop obj name ;;
     tr <- getattr_trace self ;;
     cr <- alloc (OMemberCrumb name obj) ;;
     single <- alloc (OList [cr]) ;;
     tr' <- list_add tr single ;;
     alloc (OInstance x tr'))
    (fun e => match e with
              | TypeError =>
                  Some (raise (InstanceTypeError self "member of non-object"))
              | KeyError =>
                  Some (raise (NonexistentInstance self ("member " +:+ name)))
              | _ => None
              end).

(** A frame condition: [m] run from any store that extends [σ0] ends in a
    store that extends [σ0], and its result satisfies [Q]. *)
Definition keeps (σ0 : store) {A} (m : M A) (Q : A -> Prop) : Prop :=
  forall σ, σ0 ⊆ σ ->
    σ0 ⊆ (m σ).2 /\ forall a, (m σ).1 = inr a -> Q a.

End Store.

(** ** nodeset.py *)
Module Nodeset.

(** Modelled from the spec: the class [InstanceNode] that [nodeset.py] imports
    is not among the sources.  A node exposes a path identity ([n.path]), a
    scalar value ([n.value]), the predicate [n.is_internal()] and its string
    form ([str(n)]). *)
Record Node (P : Type) : Type := mkNode {
  path : P;
  value : Value;
  is_internal : bool;
  str : string
}.
Arguments mkNode {P} _ _ _ _.
Arguments path {P} _.
Arguments value {P} _.
Arguments is_internal {P} _.
Arguments str {P} _.

(** The scalars of [XPathValue = Union["NodeSet", str, float, bool]]. *)
Inductive Scalar : Type :=
  | SStr (s : string)
  | SFloat (f : float)
  | SBool (b : bool).

Inductive XPathValue (P : Type) : Type :=
  | XNodeSet (ns : list (Node P))
  | XScalar (v : Scalar).
Arguments XNodeSet {P} ns.
Arguments XScalar {P} v.

Definition scalar_value (v : Scalar) : Value :=
  match v with
  | SStr s => VStr s
  | SFloat f => VFloat f
  | SBool b => VBool b
  end.

(** [isinstance(v, Number)]: [bool] is a subclass of [int]. *)
Definition is_number (v : Value) : bool :=
  match v with
  | VBool _ | VInt _ | VFloat _ => true
  | _ => false
  end.

Section nodeset.
Context {P : Type} `{EqDecision P}.

(** Python's parser of a string into a float ([float(s)]); [None] stands for
    [ValueError]. It is a built-in of the language, taken as given. *)
Variable float_of_str : string -> option float.

(** [float(v)] *)
Definition py_float (v : Value) : result float :=
  match v with
  | VFloat f => Ok f
  | VInt z => Py.float_of_int z
  | VBool b => Py.float_of_int (Py.bool_to_Z b)
  | VStr s =>
      match float_of_str s with
      | Some f => Ok f
      | None => Raise ValueError
      end
  | VNone | VArr _ | VObj _ => Raise TypeError
  end.

(** The decorator [comparison]: a node-set argument is compared member by
    member through the string forms of its non-internal nodes. *)
Definition comparison (meth : list (Node P) -> Scalar -> result bool)
    (self : list (Node P)) (arg : XPathValue P) : result bool :=
  match arg with
  | XNodeSet ns =>
      (fix loop (ns : list (Node P)) : result bool :=
         match ns with
         | [] => Ok false
         | n :: rest =>
             if is_internal n then loop rest
             else r ← meth self (SStr (str n));
                  if r : bool then Ok true else loop rest
         end) ns
  | XScalar v => meth self v
  end.

(** [{n.path: n for n in l}] *)
Definition dict_of (l : list (Node P)) : list (P * Node P) :=
  foldl (fun d n => PyDict.setitem (path n) n d) [] l.

Definition union (self ns : list (Node P)) : list (Node P) :=
  PyDict.values (dict_of (self ++ ns)).

Definition bind (self : list (Node P)) (trans : Node P -> list (Node P))
  : list (Node P) :=
  PyDict.values (dict_of (n ← self; trans n)).

Definition __float__ (self : list (Node P)) : result float :=
  n ← Py.getitem self 0; py_float (value n).

(** truth value of a list *)
Definition list_bool {A} (l : list A) : bool :=
  match l with [] => false | _ => true end.

Definition __str__ (self : list (Node P)) : result string :=
  if list_bool self then n ← Py.getitem self 0; Ok (str n)
  else Ok EmptyString.

Fixpoint eq_body (self : list (Node P)) (val : Scalar) : result bool :=
  match self with
  | [] => Ok false
  | n :: rest =>
      if is_internal n then eq_body rest val
      else
        match val with
        | SStr s =>
            if String.eqb (str n) s then Ok true else eq_body rest val
        | _ =>
            if is_number (value n) then
              f ← py_float (value n);
              if Py.eq (VFloat f) (scalar_value val) then Ok true
              else eq_body rest val
            else if Py.eq (value n) (scalar_value val) then Ok true
            else eq_body rest val
        end
  end.

Fixpoint ne_body (self : list (Node P)) (val : Scalar) : result bool :=
  match self with
  | [] => Ok false
  | n :: rest =>
      if is_internal n then ne_body rest val
      else
        match val with
        | SStr s =>
            if negb (String.eqb (str n) s) then Ok true else ne_body rest val
        | _ =>
            if is_number (value n) then
              f ← py_float (value n);
              if Py.ne (VFloat f) (scalar_value val) then Ok true
              else ne_body rest val
            else if Py.ne (value n) (scalar_value val) then Ok true
            else ne_body rest val
        end
  end.

(** The four ordering methods have one shape and differ in the operator [op]
    applied to [float(n.value)] and the coerced argument. *)
Fixpoint ordering_loop (op : float -> float -> bool) (self : list (Node P))
    (val : float) : result bool :=
  match self with
  | [] => Ok false
  | n :: rest =>
      match py_float (value n) with
      | Ok f => if op f val then Ok true else ordering_loop op rest val
      | Raise ValueError | Raise TypeError => ordering_loop op rest val
      | Raise e => Raise e
      end
  end.

Definition ordering_body (op : float -> float -> bool)
    (self : list (Node P)) (val : Scalar) : result bool :=
  match py_float (scalar_value val) with
  | Ok v => ordering_loop op self v
  | Raise ValueError | Raise TypeError => Ok false
  | Raise e => Raise e
  end.

Definition __eq__ := comparison eq_body.
Definition __ne__ := comparison ne_body.
Definition __gt__ := comparison (ordering_body (fun f v => PrimFloat.ltb v f)).
Definition __lt__ := comparison (ordering_body (fun f v => PrimFloat.ltb f v)).
Definition __ge__ := comparison (ordering_body (fun f v => PrimFloat.leb v f)).
Definition __le__ := comparison (ordering_body (fun f v => PrimFloat.leb f v)).

End nodeset.
End Nodeset.

(** ** instance.py, continued: [top], [look_up], [goto], string forms *)
Module Route.

(** [while inst.trace: inst = inst.up].  The loop is run with a bound on the
    number of iterations; [None] means the bound was reached. *)
Fixpoint top_loop (fuel : nat) (inst : Instance) : option (result Instance) :=
  match trace inst with
  | [] => Some (Ok inst)
  | _ :: _ =>
      match fuel with
      | O => None
      | S fuel' =>
          match Zipper.up inst with
          | Ok inst' => top_loop fuel' inst'
          | Raise e => Some (Raise e)
          end
      end
  end.

(** Each [up] drops one crumb, so as many iterations as there are crumbs are
    enough. *)
Definition top (self : Instance) : option (result Instance) :=
  top_loop (length (trace self)) self.

(** The loop of [look_up] over [range(len(self.value))]. *)
Fixpoint look_up_loop (self : Instance) (val : list Value)
    (keys : list (string * Value)) (range : list nat) : result Instance :=
  match range with
  | [] => Raise (NonexistentInstance self "entry lookup failed")
  | i :: rest =>
      en ← Py.getitem val (Z.of_nat i);
      flag ← Selector.keys_loop en keys (PyDict.keys keys);
      if flag : bool then Zipper.entry self (Z.of_nat i)
      else look_up_loop self val keys rest
  end.

Definition look_up (self : Instance) (keys : list (string * Value))
  : result Instance :=
  match value self with
  | VArr val =>
      try_except (look_up_loop self val keys (seq 0 (length val)))
        (fun e => match e with
                  | KeyError =>
                      Some (Raise (NonexistentInstance self
                                     "entry lookup failed"))
                  | TypeError =>
                      Some (Raise (InstanceTypeError self "lookup on non-list"))
                  | _ => None
                  end)
  | _ => Raise (InstanceTypeError self "lookup on non-list")
  end.

Section strings.
(** Python's [str(v)] and [repr(v)] on instance values are built-ins of the
    language, taken as given. *)
Variables (py_str py_repr : Value -> string).

Definition goto_step (sel : InstanceSelector) (inst : Instance)
  : result Instance :=
  match sel with
  | MemberName name => Zipper.member inst name
  | EntryIndex index => Zipper.entry inst index
  | EntryValue x =>
      try_except (i ← Py.index (value inst) x; Zipper.entry inst i)
        (fun e => match e with
                  | ValueError =>
                      Some (Raise (NonexistentInstance inst
                                     ("entry '" +:+ py_str x +:+ "'")))
                  | _ => None
                  end)
  | EntryKeys keys => look_up inst keys
  end.

(** [inst = self; for sel in ii: inst = sel.goto_step(inst)] *)
Fixpoint goto (self : Instance) (ii : list InstanceSelector)
  : result Instance :=
  match ii with
  | [] => Ok self
  | sel :: rest => inst ← goto_step sel self; goto inst rest
  end.

(** [__str__] of the four selectors. *)
Definition selector_str (sel : InstanceSelector) : string :=
  match sel with
  | MemberName name => "/" +:+ name
  | EntryIndex index => "[" +:+ pretty index +:+ "]"
  | EntryValue x => "[.=" +:+ py_str x +:+ "]"
  | EntryKeys keys =>
      String.concat ""
        ((fun k => "[" +:+ k +:+ "=" +:+
                   py_repr (default VNone (PyDict.get k keys)) +:+ "]")
           <$> PyDict.keys keys)
  end.

(** [InstanceIdentifier.__str__] *)
Definition identifier_str (ii : list InstanceSelector) : string :=
  String.concat "" (selector_str <$> ii).

End strings.

(** [InstanceError.__str__]: "[" + pointer + "] ". *)
Definition instance_error_str (inst : Instance) : result string :=
  p ← Zipper.pointer inst; Ok ("[" +:+ p +:+ "] ").

(** [__str__] of the three exceptions of [instance.py]
    ("{} {}".format(super().__str__(), self.text), and "{} member {}" for
    [DuplicateMember]); [None] on the built-in exceptions, which are not
    defined here. *)
Definition error_str (e : exn) : option (result string) :=
  match e with
  | NonexistentInstance inst text | InstanceTypeError inst text =>
      Some (s ← instance_error_str inst; Ok (s +:+ " " +:+ text))
  | DuplicateMember inst name =>
      Some (s ← instance_error_str inst; Ok (s +:+ " member " +:+ name))
  | _ => None
  end.

End Route.

(** ** Reference definitions used in the statements *)

(** The names of the member crumbs of a trace, outermost first. *)
Definition member_names (tr : list Crumb) : list string :=
  omap (fun c => match c with
                 | MemberCrumb name _ => Some name
                 | EntryCrumb _ _ => None
                 end) tr.

(** Whether a name contains ":", and the part before its first ":". *)
Fixpoint has_colon (s : string) : bool :=
  match s with
  | EmptyString => false
  | String a s' => if Ascii.eqb a ":"%char then true else has_colon s'
  end.

Fixpoint before_colon (s : string) : string :=
  match s with
  | EmptyString => EmptyString
  | String a s' =>
      if Ascii.eqb a ":"%char then EmptyString else String a (before_colon s')
  end.

(** The namespace read off the innermost member crumb whose name is
    qualified (contains ":"). *)
Definition namespace_innermost_qualified (tr : list Crumb) : option string :=
  before_colon <$> last (filter (fun n => has_colon n) (member_names tr)).

(** The namespace read off the innermost member crumb alone, whether or not
    its name is qualified. *)
Definition namespace_first_member (tr : list Crumb) : option string :=
  match last (member_names tr) with
  | Some n => if has_colon n then Some (before_colon n) else None
  | None => None
  end.

(** The selector step that leads from the parent back to the focus a crumb
    was left for: the member of that name, the entry at that index. *)
Definition reselect (c : Crumb) (parent : Instance) : result Instance :=
  match c with
  | MemberCrumb name _ => Zipper.member parent name
  | EntryCrumb before _ => Zipper.entry parent (Z.of_nat (length before))
  end.

(** The source annotates [MemberCrumb.__init__(self, name: QName, obj:
    Object)]: a crumb is well typed when the object it keeps is a
    dictionary. *)
Definition crumb_typed (c : Crumb) : Prop :=
  match c with
  | MemberCrumb _ (VObj _) => True
  | MemberCrumb _ _ => False
  | EntryCrumb _ _ => True
  end.

Section paths.
Context {P : Type} `{EqDecision P}.

(** The distinct elements of a list in the order of their first
    occurrence. *)
Fixpoint first_occurrences (l : list P) : list P :=
  match l with
  | [] => []
  | p :: l' => p :: filter (fun q => q <> p) (first_occurrences l')
  end.

(** The last node of a list with a given path. *)
Definition last_with_path (p : P) (l : list (Nodeset.Node P))
  : option (Nodeset.Node P) :=
  last (filter (fun n => Nodeset.path n = p) l).

End paths.



(** An entry matches a dictionary of keys when it has every key with an
    equal value ([en[k] != keys[k]] is false for each [k]). *)
Definition matches (en : Value) (keys : list (string * Value)) : Prop :=
  forall k y, PyDict.get k keys = Some y ->
    exists x, Py.getitem_str en k = Ok x /\ Py.eq x y = true.

(** An exception is the overflow of a member: it is [OverflowError] and some
    member's value is an integer that [float()] cannot represent. *)
Definition overflows {P : Type} (self : list (Nodeset.Node P)) (e : exn)
  : Prop :=
  e = OverflowError /\
  exists n z, n ∈ self /\ Nodeset.value n = VInt z /\
              Py.float_of_int z = Raise OverflowError.

(** * Properties *)

Arguments Py.getitem : simpl never.
Arguments Py.slice_to : simpl never.
Arguments Py.slice_from : simpl never.

(** ** Facts about the built-ins *)
Section builtins.
Context {A : Type}.
Implicit Types (l : list A) (x : A) (i : Z).

Lemma getitem_nonneg l i x :
  0 <= i -> l !! Z.to_nat i = Some x -> Py.getitem l i = Ok x.
Proof.
  intros Hi Hx. pose proof (lookup_lt_Some _ _ _ Hx) as Hlt.
  unfold Py.getitem, Py.norm_index.
  destruct (Z.ltb_spec i 0); [lia|].
  destruct (Z.leb_spec 0 i); [|lia].
  destruct (Z.ltb_spec i (Z.of_nat (length l))); [|lia].
  simpl. by rewrite Hx.
Qed.

Lemma getitem_nil i : Py.getitem (@nil A) i = Raise IndexError.
Proof.
  unfold Py.getitem. simpl. by destruct (_ && _).
Qed.

Lemma getitem_last l x : Py.getitem (l ++ [x]) (-1) = Ok x.
Proof.
  unfold Py.getitem, Py.norm_index. rewrite length_app. simpl.
  replace (-1 + Z.of_nat (length l + 1)) with (Z.of_nat (length l)) by lia.
  destruct (Z.leb_spec 0 (Z.of_nat (length l))); [|lia].
  destruct (Z.ltb_spec (Z.of_nat (length l)) (Z.of_nat (length l + 1))); [|lia].
  simpl. rewrite Nat2Z.id. by rewrite list_lookup_middle.
Qed.

Lemma getitem_head l x : Py.getitem (x :: l) 0 = Ok x.
Proof. by apply getitem_nonneg. Qed.

Lemma slice_to_nonneg l i :
  0 <= i <= Z.of_nat (length l) -> Py.slice_to l i = take (Z.to_nat i) l.
Proof.
  intros Hi. unfold Py.slice_to, Py.clamp, Py.norm_index.
  destruct (Z.ltb_spec i 0); [lia|]. do 2 f_equal. lia.
Qed.

Lemma slice_from_nonneg l i :
  0 <= i <= Z.of_nat (length l) -> Py.slice_from l i = drop (Z.to_nat i) l.
Proof.
  intros Hi. unfold Py.slice_from, Py.clamp, Py.norm_index.
  destruct (Z.ltb_spec i 0); [lia|]. do 2 f_equal. lia.
Qed.

Lemma slice_to_last l x : Py.slice_to (l ++ [x]) (-1) = l.
Proof.
  unfold Py.slice_to, Py.clamp, Py.norm_index. rewrite length_app. simpl.
  replace (Z.to_nat _) with (length l) by lia.
  by rewrite take_app_length.
Qed.

Lemma slice_from_one l x : Py.slice_from (x :: l) 1 = l.
Proof. rewrite slice_from_nonneg; [done|]. simpl. lia. Qed.

(** A successful [l[i]] reads position [i], or [len(l) + i] when [i] is
    negative. *)
Lemma getitem_Ok l i x :
  Py.getitem l i = Ok x ->
  l !! Z.to_nat (Py.norm_index (Z.of_nat (length l)) i) = Some x /\
  0 <= Py.norm_index (Z.of_nat (length l)) i < Z.of_nat (length l).
Proof.
  unfold Py.getitem.
  destruct (Z.leb_spec 0 (Py.norm_index (Z.of_nat (length l)) i)); [|done].
  destruct (Z.ltb_spec (Py.norm_index (Z.of_nat (length l)) i)
              (Z.of_nat (length l))); [|done].
  simpl. destruct (l !! _) eqn:E; [|done]. intros [= <-]. split; [done|lia].
Qed.

Lemma slice_to_neg l i :
  - Z.of_nat (length l) <= i < 0 ->
  Py.slice_to l i = take (Z.to_nat (i + Z.of_nat (length l))) l.
Proof.
  intros Hi. unfold Py.slice_to, Py.clamp, Py.norm_index.
  destruct (Z.ltb_spec i 0); [|lia]. do 2 f_equal. lia.
Qed.

Lemma slice_from_neg l i :
  - Z.of_nat (length l) <= i < 0 ->
  Py.slice_from l i = drop (Z.to_nat (i + Z.of_nat (length l))) l.
Proof.
  intros Hi. unfold Py.slice_from, Py.clamp, Py.norm_index.
  destruct (Z.ltb_spec i 0); [|lia]. do 2 f_equal. lia.
Qed.

Lemma slice_from_zero l : Py.slice_from l 0 = l.
Proof. by rewrite slice_from_nonneg by lia. Qed.

(** The array that [EntryCrumb.zip] rebuilds after [entry(i)] still has the
    focus at index [i]. *)
Lemma getitem_rezipped l i x :
  Py.getitem l i = Ok x ->
  Py.getitem (Py.slice_to l i ++ x :: Py.slice_from l (i + 1)) i = Ok x.
Proof.
  intros Hget. destruct (getitem_Ok l i x Hget) as [Hx Hrange].
  unfold Py.norm_index in Hx, Hrange.
  destruct (Z.ltb_spec i 0) as [Hneg|Hpos].
  - rewrite slice_to_neg by lia.
    destruct (decide (i = -1)) as [->|Hne].
    + simpl. rewrite slice_from_zero.
      replace (Z.to_nat (-1 + Z.of_nat (length l))) with (pred (length l))
        in * by lia.
      assert (exists l0, l = l0 ++ [x]) as [l0 ->].
      { exists (take (pred (length l)) l).
        rewrite <- (take_drop_middle l (pred (length l)) x) at 1 by done.
        by rewrite drop_ge by lia. }
      rewrite app_comm_cons, app_assoc. apply getitem_last.
    + rewrite slice_from_neg by lia.
      replace (Z.to_nat (i + 1 + Z.of_nat (length l)))
        with (S (Z.to_nat (i + Z.of_nat (length l)))) by lia.
      by rewrite take_drop_middle.
  - rewrite slice_to_nonneg by lia. apply getitem_nonneg; [done|].
    apply list_lookup_middle. rewrite length_take. lia.
Qed.

End builtins.

(** [self.crumb()] is the last crumb of the trace and fails on the empty
    trace. *)
Lemma crumb_last (v : Value) (tr : list Crumb) (c : Crumb) :
  Zipper.crumb (mkInstance v (tr ++ [c])) = Ok c.
Proof. apply getitem_last. Qed.

Lemma crumb_root (v : Value) :
  Zipper.crumb (mkInstance v []) = Raise IndexError.
Proof. apply getitem_nil. Qed.

Lemma replace_crumb_last (v : Value) (tr : list Crumb) (c c' : Crumb) :
  Zipper._replace_crumb (mkInstance v (tr ++ [c])) c' = tr ++ [c'].
Proof. unfold Zipper._replace_crumb. simpl. by rewrite slice_to_last. Qed.

(** ** Descending: [member] and [entry] on a focus of the right shape *)

Lemma member_ok (self : Instance) (d : list (string * Value)) (name : string)
    (x : Value) :
  value self = VObj d ->
  PyDict.get name d = Some x ->
  Zipper.member self name =
    Ok (mkInstance x
          (trace self ++ [MemberCrumb name (VObj (PyDict.remove name d))])).
Proof.
  intros Hv Hx. unfold Zipper.member. rewrite Hv. simpl.
  unfold PyDict.pop. by rewrite Hx.
Qed.

Lemma entry_ok (self : Instance) (l : list Value) (i : Z) (x : Value) :
  value self = VArr l ->
  0 <= i ->
  l !! Z.to_nat i = Some x ->
  Zipper.entry self i =
    Ok (mkInstance x
          (trace self ++
           [EntryCrumb (take (Z.to_nat i) l) (drop (S (Z.to_nat i)) l)])).
Proof.
  intros Hv Hi Hx. pose proof (lookup_lt_Some _ _ _ Hx) as Hlt.
  unfold Zipper.entry. rewrite Hv.
  rewrite (getitem_nonneg l i x Hi Hx). simpl.
  rewrite slice_to_nonneg by lia. rewrite slice_from_nonneg by lia.
  by replace (Z.to_nat (i + 1)) with (S (Z.to_nat i)) by lia.
Qed.

(** ** [pointer] *)

(** On a trace of member crumbs only, [pointer] is the names joined by "/". *)
Lemma pointer_members (v : Value) (ms : list (string * Value)) :
  Zipper.pointer (mkInstance v ((fun m => MemberCrumb m.1 m.2) <$> ms)) =
    Ok ("/" +:+ String.concat "/" (ms.*1)).
Proof.
  unfold Zipper.pointer, Py.join. simpl.
  assert (mapM Py.as_str
            (Zipper.pointer_fragment <$> ((fun m => MemberCrumb m.1 m.2) <$> ms))
          = Some (ms.*1)) as ->; [|done].
  apply mapM_Some. induction ms as [|[n o] ms IH]; simpl; by constructor.
Qed.

(** As soon as the trace holds an entry crumb, its fragment is an [int] and
    [str.join] refuses it. *)
Lemma pointer_entry_crumb (v : Value) (tr tr' : list Crumb)
    (before after : list Value) :
  Zipper.pointer (mkInstance v (tr ++ EntryCrumb before after :: tr')) =
    Raise TypeError.
Proof.
  unfold Zipper.pointer, Py.join. simpl.
  assert (mapM Py.as_str
            (Zipper.pointer_fragment <$> tr ++ EntryCrumb before after :: tr')
          = None) as ->; [|done].
  apply mapM_None. rewrite fmap_app, Exists_app. right. by left.
Qed.

(** C1 (the code departs from the claim): on every root instance whose focus
    is an object with member "a" holding an array of at least three entries,
    [member("a")] then [entry(2)] succeed, the crumbs' fragments are "a" and
    2, but [pointer()] raises [TypeError] instead of returning "/a/2",
    because [EntryCrumb.pointer_fragment] hands an [int] to [str.join]. *)
Theorem C1_pointer_raises_on_entry (d : list (string * Value))
    (l : list Value) :
  PyDict.get "a" d = Some (VArr l) ->
  (3 <= length l)%nat ->
  exists j : Instance,
    (i ← Zipper.member (mkInstance (VObj d) []) "a"; Zipper.entry i 2) = Ok j /\
    Zipper.pointer_fragment <$> trace j = [VStr "a"; VInt 2] /\
    Zipper.pointer j = Raise TypeError.
Proof.
  intros Ha Hlen.
  destruct (lookup_lt_is_Some_2 l 2 ltac:(lia)) as [x Hx].
  rewrite (member_ok _ d "a" (VArr l)) by done. simpl.
  rewrite (entry_ok _ l 2 x) by (done || lia). simpl.
  eexists. split; [done|]. split.
  - simpl. rewrite length_take. do 3 f_equal. lia.
  - apply (pointer_entry_crumb _ [_] []).
Qed.

Lemma C1_pointer_raises_on_entry_witness :
  exists j : Instance,
    (i ← Zipper.member
           (mkInstance (VObj [("a", VArr [VInt 10; VInt 20; VInt 30])]) []) "a";
     Zipper.entry i 2) = Ok j /\
    Zipper.pointer_fragment <$> trace j = [VStr "a"; VInt 2] /\
    Zipper.pointer j = Raise TypeError.
Proof.
  apply (C1_pointer_raises_on_entry
           [("a", VArr [VInt 10; VInt 20; VInt 30])]
           [VInt 10; VInt 20; VInt 30]).
  - reflexivity.
  - simpl. lia.
Defined.

(** ** [peek] *)

(** A step that finds nothing returns [None]; the next member step then calls
    [None.get] and raises. *)
Lemma peek_absent_member (self : Instance) (d : list (string * Value))
    (a b : string) (rest : list InstanceSelector) :
  value self = VObj d ->
  PyDict.get a d = None ->
  Selector.peek self (MemberName a :: MemberName b :: rest) =
    Raise AttributeError.
Proof.
  intros Hv Ha. unfold Selector.peek. rewrite Hv. simpl. by rewrite Ha.
Qed.

(** Likewise an index step applied to the [None] of an absent member raises
    [TypeError]. *)
Lemma peek_absent_index (self : Instance) (d : list (string * Value))
    (a : string) (i : Z) (rest : list InstanceSelector) :
  value self = VObj d ->
  PyDict.get a d = None ->
  Selector.peek self (MemberName a :: EntryIndex i :: rest) = Raise TypeError.
Proof.
  intros Hv Ha. unfold Selector.peek. rewrite Hv. simpl. by rewrite Ha.
Qed.

(** A single step on a container of the expected kind does report absence as
    [None]. *)
Lemma peek_step_absent_is_None (d : list (string * Value)) (l : list Value)
    (a : string) (i : Z) :
  PyDict.get a d = None ->
  Z.of_nat (length l) <= i ->
  Selector.peek_step (MemberName a) (VObj d) = Ok VNone /\
  Selector.peek_step (EntryIndex i) (VArr l) = Ok VNone.
Proof.
  intros Ha Hi. simpl. rewrite Ha. split; [done|].
  unfold Py.getitem, Py.norm_index.
  destruct (Z.ltb_spec i 0); [lia|].
  destruct (Z.leb_spec 0 i); [|lia].
  by destruct (Z.ltb_spec i (Z.of_nat (length l))); [lia|].
Qed.

(** C2 (the code departs from the claim): whenever the focus is an object
    without the member [a], the step for [a] alone gives [None], but [peek]
    along a path that goes on after [a] raises: [AttributeError] when the
    next step is a member name ([None.get]), [TypeError] when it is an index
    ([None[i]]). The absence is not carried to the end of the path. *)
Theorem C2_peek_raises_after_absent_step (self : Instance)
    (d : list (string * Value)) (a b : string) (i : Z)
    (rest : list InstanceSelector) :
  value self = VObj d ->
  PyDict.get a d = None ->
  Selector.peek self [MemberName a] = Ok VNone /\
  Selector.peek self (MemberName a :: MemberName b :: rest) =
    Raise AttributeError /\
  Selector.peek self (MemberName a :: EntryIndex i :: rest) = Raise TypeError.
Proof.
  intros Hv Ha. split; [|split].
  - unfold Selector.peek. rewrite Hv. simpl. by rewrite Ha.
  - by apply (peek_absent_member self d).
  - by apply (peek_absent_index self d).
Qed.

Lemma C2_peek_raises_after_absent_step_witness :
  Selector.peek (mkInstance (VObj []) []) [MemberName "a"] = Ok VNone /\
  Selector.peek (mkInstance (VObj []) []) [MemberName "a"; MemberName "b"] =
    Raise AttributeError /\
  Selector.peek (mkInstance (VObj []) []) [MemberName "a"; EntryIndex 0] =
    Raise TypeError.
Proof.
  apply (C2_peek_raises_after_absent_step (mkInstance (VObj []) []) []
           "a" "b" 0 []); reflexivity.
Defined.

(** ** [next] and [previous] *)
Section siblings.
Variables (v : Value) (tr : list Crumb).

Lemma next_member_crumb (name : string) (obj : Value) :
  let self := mkInstance v (tr ++ [MemberCrumb name obj]) in
  Zipper.next self = Raise (InstanceTypeError self "next of non-entry").
Proof. simpl. unfold Zipper.next. by rewrite crumb_last. Qed.

Lemma previous_member_crumb (name : string) (obj : Value) :
  let self := mkInstance v (tr ++ [MemberCrumb name obj]) in
  Zipper.previous self = Raise (InstanceTypeError self "previous of non-entry").
Proof. simpl. unfold Zipper.previous. by rewrite crumb_last. Qed.

Lemma next_of_last (before : list Value) :
  let self := mkInstance v (tr ++ [EntryCrumb before []]) in
  Zipper.next self = Raise (NonexistentInstance self "next of last").
Proof. simpl. unfold Zipper.next. by rewrite crumb_last. Qed.

Lemma previous_of_first (after : list Value) :
  let self := mkInstance v (tr ++ [EntryCrumb [] after]) in
  Zipper.previous self = Raise (NonexistentInstance self "previous of first").
Proof. simpl. unfold Zipper.previous. by rewrite crumb_last. Qed.

Lemma next_ok (before after : list Value) (x : Value) :
  Zipper.next (mkInstance v (tr ++ [EntryCrumb before (x :: after)])) =
    Ok (mkInstance x (tr ++ [EntryCrumb (before ++ [v]) after])).
Proof.
  unfold Zipper.next. rewrite crumb_last. cbn.
  rewrite getitem_head. cbn.
  by rewrite replace_crumb_last, slice_from_one.
Qed.

Lemma previous_ok (before after : list Value) (x : Value) :
  Zipper.previous (mkInstance v (tr ++ [EntryCrumb (before ++ [x]) after])) =
    Ok (mkInstance x (tr ++ [EntryCrumb before (v :: after)])).
Proof.
  unfold Zipper.previous. rewrite crumb_last. cbn.
  rewrite getitem_last. cbn.
  by rewrite replace_crumb_last, slice_to_last.
Qed.

End siblings.

(** The sibling methods [insert_before], [insert_after] and [sibling] do map
    a missing crumb to [InstanceTypeError]. *)
Lemma insert_at_root (v x : Value) (name : string) :
  let self := mkInstance v [] in
  Zipper.insert_before self x =
    Raise (InstanceTypeError self "insert before non-entry") /\
  Zipper.insert_after self x =
    Raise (InstanceTypeError self "insert after non-entry") /\
  Zipper.sibling self name =
    Raise (InstanceTypeError self "sibling of non-member").
Proof.
  simpl. unfold Zipper.insert_before, Zipper.insert_after, Zipper.sibling.
  by rewrite crumb_root.
Qed.

(** C8 (the code departs from the claim): on an instance with an empty trace
    [next] and [previous] raise [NonexistentInstance] ("next of last",
    "previous of first"), not [InstanceTypeError]: the [IndexError] of
    [self.crumb()] is caught by the handler meant for the array boundary. *)
Theorem C8_next_previous_at_root (v : Value) :
  let self := mkInstance v [] in
  Zipper.next self = Raise (NonexistentInstance self "next of last") /\
  Zipper.previous self = Raise (NonexistentInstance self "previous of first").
Proof.
  simpl. unfold Zipper.next, Zipper.previous. by rewrite crumb_root.
Qed.

(** ** [namespace] *)

Lemma prefix_colon (a : ascii) (s : string) :
  String.prefix ":" (String a s) = Ascii.eqb a ":".
Proof.
  change (String.prefix ":" (String a s))
    with (if ascii_dec ":" a then String.prefix "" s else false).
  destruct (ascii_dec ":" a) as [<-|Hne].
  - by destruct s.
  - symmetry. apply Ascii.eqb_neq. congruence.
Qed.

Lemma find_colon (s : string) :
  Py.find ":" s =
    if has_colon s then Some (String.length (before_colon s)) else None.
Proof.
  induction s as [|a s IH]; [done|].
  cbn [Py.find has_colon before_colon]. rewrite prefix_colon.
  destruct (Ascii.eqb a ":"); [done|].
  rewrite IH. by destruct (has_colon s).
Qed.

Lemma substring_before_colon (s : string) :
  has_colon s = true ->
  String.substring 0 (String.length (before_colon s)) s = before_colon s.
Proof.
  induction s as [|a s IH]; [done|]. simpl.
  destruct (Ascii.eqb a ":"); [done|]. intros Hs. simpl. by rewrite IH.
Qed.

Lemma partition_colon (s : string) :
  (Py.partition ":" s).1 =
    (if has_colon s then before_colon s else s, if has_colon s then ":" else "")%string.
Proof.
  unfold Py.partition. rewrite find_colon.
  destruct (has_colon s) eqn:Hs; [|done]. simpl.
  by rewrite substring_before_colon.
Qed.

Lemma namespace_loop_cons_member (name : string) (obj : Value)
    (rest : list Crumb) :
  Zipper.namespace_loop (MemberCrumb name obj :: rest) =
    if has_colon name then Some (before_colon name)
    else Zipper.namespace_loop rest.
Proof.
  cbn [Zipper.namespace_loop].
  pose proof (partition_colon name) as Hp.
  destruct (Py.partition ":" name) as [[p s] loc]. simpl in Hp.
  injection Hp as -> ->. by destruct (has_colon name).
Qed.

(** C9 (amended): the namespace of an instance is decided by the innermost
    member crumb whose name contains ":", and is the part of that name before
    its first ":"; member crumbs with an unqualified name are passed over, and
    there is no namespace only when no member crumb of the trace has a
    qualified name. *)
Theorem C9_namespace_innermost_qualified (self : Instance) :
  Zipper.namespace self = namespace_innermost_qualified (trace self).
Proof.
  unfold Zipper.namespace, namespace_innermost_qualified, member_names.
  induction (trace self) as [|c tr IH] using rev_ind; [done|].
  rewrite rev_unit, omap_app, filter_app, last_app.
  destruct c as [name obj|before after].
  - rewrite namespace_loop_cons_member. simpl. rewrite filter_cons, filter_nil.
    by destruct (has_colon name).
  - done.
Qed.

(** C9 (as stated, refuted): under a member crumb "ns:a", the innermost
    member crumb "b" has no ":", yet [namespace] is "ns" and not "no value":
    the outer crumb is consulted. *)
Lemma C9_first_member_counterexample :
  let tr := [MemberCrumb "ns:a" (VObj []); MemberCrumb "b" (VObj [])] in
  last (member_names tr) = Some "b"%string /\
  has_colon "b" = false /\
  namespace_first_member tr = None /\
  Zipper.namespace (mkInstance VNone tr) = Some "ns"%string.
Proof. repeat split. Qed.

(** ** Dictionaries built by insertion *)
Section dict_facts.
Context {K V : Type} `{EqDecision K}.
Implicit Types (d : list (K * V)) (k : K) (v : V).

Lemma get_setitem_eq k v d : PyDict.get k (PyDict.setitem k v d) = Some v.
Proof.
  induction d as [|[k' v'] d IH]; simpl.
  - by rewrite decide_True.
  - destruct (decide (k = k')) as [->|Hne]; simpl.
    + by rewrite decide_True.
    + by rewrite decide_False.
Qed.

Lemma get_setitem_ne k k' v d :
  k' <> k -> PyDict.get k' (PyDict.setitem k v d) = PyDict.get k' d.
Proof.
  intros Hne. induction d as [|[k0 v0] d IH]; simpl.
  - by rewrite decide_False.
  - destruct (decide (k = k0)) as [->|Hne0]; simpl.
    + by rewrite !decide_False.
    + by rewrite IH.
Qed.

Lemma keys_setitem k v d :
  PyDict.keys (PyDict.setitem k v d) =
    if decide (k ∈ PyDict.keys d) then PyDict.keys d else PyDict.keys d ++ [k].
Proof.
  unfold PyDict.keys. induction d as [|[k' v'] d IH].
  - cbn [PyDict.setitem fmap list_fmap fst].
    case_decide as Hin; [by apply elem_of_nil in Hin|done].
  - cbn [PyDict.setitem fmap list_fmap fst] in *.
    destruct (decide (k = k')) as [->|Hne].
    + clear IH. cbn [fmap list_fmap fst].
      case_decide as Hin; [done|]. exfalso. apply Hin. by left.
    + cbn [fmap list_fmap fst]. rewrite IH. clear IH.
      destruct (decide (k ∈ d.*1)) as [Hin|Hnin];
        destruct (decide (k ∈ k' :: d.*1)) as [Hin'|Hnin']; try done.
      * exfalso. apply Hnin'. by right.
      * exfalso. by apply elem_of_cons in Hin' as [?|?].
Qed.

(** In a dictionary without repeated keys every entry is the one [get]
    finds. *)
Lemma get_entries d :
  NoDup (PyDict.keys d) -> Forall (fun kv => PyDict.get kv.1 d = Some kv.2) d.
Proof.
  unfold PyDict.keys. induction d as [|[k v] d IH]; simpl; [done|].
  intros [Hk Hd]%NoDup_cons. constructor; simpl.
  - by rewrite decide_True.
  - specialize (IH Hd). rewrite Forall_forall in IH |- *.
    intros [k' v'] Hin. simpl. rewrite decide_False; [by apply (IH (k', v'))|].
    intros ->. apply Hk. apply list_elem_of_fmap. by exists (k, v').
Qed.

End dict_facts.

(** ** Ascending: [up] *)


Lemma up_root (v : Value) :
  let self := mkInstance v [] in
  Zipper.up self = Raise (NonexistentInstance self "up of top").
Proof. simpl. unfold Zipper.up. by rewrite crumb_root. Qed.

Lemma up_member_crumb (v : Value) (tr : list Crumb) (name : string)
    (d : list (string * Value)) :
  Zipper.up (mkInstance v (tr ++ [MemberCrumb name (VObj d)])) =
    Ok (mkInstance (VObj (PyDict.setitem name v d)) tr).
Proof.
  unfold Zipper.up. rewrite crumb_last. cbn. by rewrite slice_to_last.
Qed.

Lemma up_entry_crumb (v : Value) (tr : list Crumb)
    (before after : list Value) :
  Zipper.up (mkInstance v (tr ++ [EntryCrumb before after])) =
    Ok (mkInstance (VArr (before ++ v :: after)) tr).
Proof.
  unfold Zipper.up. rewrite crumb_last. cbn. by rewrite slice_to_last.
Qed.

(** ** [new_member] *)

Lemma new_member_ok (self : Instance) (d : list (string * Value))
    (name : string) (v : Value) :
  value self = VObj d ->
  PyDict.get name d = None ->
  Zipper.new_member self name v =
    Ok (mkInstance v (trace self ++ [MemberCrumb name (VObj d)])).
Proof.
  intros Hv Hd. unfold Zipper.new_member. rewrite Hv. simpl. rewrite Hd.
  rewrite bool_decide_eq_false_2; [done|]. by intros [? ?].
Qed.

Lemma new_member_duplicate (self : Instance) (d : list (string * Value))
    (name : string) (v x : Value) :
  value self = VObj d ->
  PyDict.get name d = Some x ->
  Zipper.new_member self name v = Raise (DuplicateMember self name).
Proof.
  intros Hv Hd. unfold Zipper.new_member. rewrite Hv. simpl. rewrite Hd.
  by rewrite bool_decide_eq_true_2.
Qed.

(** C7 (amended): on a focus that is an object without the member [name],
    [new_member(name, v)] succeeds and its focus is [v]; going [up] and then
    to [member(name)] succeeds and yields the focus [v] again. *)
Theorem C7_new_member_up_member (self : Instance) (d : list (string * Value))
    (name : string) (v : Value) :
  value self = VObj d ->
  PyDict.get name d = None ->
  exists i j : Instance,
    Zipper.new_member self name v = Ok i /\ value i = v /\
    (p ← Zipper.up i; Zipper.member p name) = Ok j /\ value j = v.
Proof.
  intros Hv Hd. rewrite (new_member_ok self d) by done.
  eexists. exists (mkInstance v
    (trace self ++
     [MemberCrumb name (VObj (PyDict.remove name (PyDict.setitem name v d)))])).
  split; [done|]. split; [done|]. split; [|done].
  rewrite up_member_crumb. cbn [mbind result_bind].
  by rewrite (member_ok _ (PyDict.setitem name v d) name v)
    by (done || apply get_setitem_eq).
Qed.

Lemma C7_new_member_up_member_witness :
  exists i j : Instance,
    Zipper.new_member (mkInstance (VObj [("y", VInt 0)]) []) "x" (VInt 1)
      = Ok i /\ value i = VInt 1 /\
    (p ← Zipper.up i; Zipper.member p "x") = Ok j /\ value j = VInt 1.
Proof.
  apply (C7_new_member_up_member
           (mkInstance (VObj [("y", VInt 0)]) []) [("y", VInt 0)] "x" (VInt 1));
    reflexivity.
Defined.

(** C7 (as stated, refuted): [new_member] already moves the focus to the new
    value, so a following [member("x")] looks for "x" inside [v]: with [v = 1]
    it raises [AttributeError], and with [v = {"x": 7}] it yields 7, not
    [v]. *)
Lemma C7_new_member_then_member_counterexample :
  PyDict.get "x" ([] : list (string * Value)) = None /\
  (i ← Zipper.new_member (mkInstance (VObj []) []) "x" (VInt 1);
   Zipper.member i "x") = Raise AttributeError /\
  (i ← Zipper.new_member (mkInstance (VObj []) []) "x"
         (VObj [("x", VInt 7)]);
   Zipper.member i "x") =
    Ok (mkInstance (VInt 7)
          [MemberCrumb "x" (VObj []); MemberCrumb "x" (VObj [])]).
Proof. repeat split. Qed.

(** ** Crumbs left by the descending steps are well typed *)

Lemma member_crumb_typed (parent j : Instance) (name : string) :
  Zipper.member parent name = Ok j ->
  exists c, trace j = trace parent ++ [c] /\ crumb_typed c.
Proof.
  unfold Zipper.member.
  destruct (value parent) as [| | | | |l|d]; try done. simpl.
  unfold PyDict.pop. destruct (PyDict.get name d) as [x|]; [|done].
  simpl. intros [= <-]. by eexists.
Qed.

Lemma entry_crumb_typed (parent j : Instance) (i : Z) :
  Zipper.entry parent i = Ok j ->
  exists c, trace j = trace parent ++ [c] /\ crumb_typed c.
Proof.
  unfold Zipper.entry. destruct (value parent) as [| | | | |l|d]; try done.
  destruct (Py.getitem l i) as [x|[]]; try done.
  simpl. intros [= <-]. by eexists.
Qed.

(** [new_member] on a focus that is not an object (here a string without the
    name in it) leaves a crumb that [up] cannot zip. *)
Example new_member_on_string :
  (i ← Zipper.new_member (mkInstance (VStr "abc") []) "x" (VInt 1);
   Zipper.up i) = Raise AttributeError.
Proof. reflexivity. Qed.

(** The walk of the specification's end-to-end example, pointers aside. *)
Example walk_a_1_next_up_up :
  let root := mkInstance (VObj [("a", VArr [VInt 10; VInt 20; VInt 30])]) [] in
  (a ← Zipper.member root "a";
   e ← Zipper.entry a 1;
   n ← Zipper.next e;
   p ← Zipper.up n;
   r ← Zipper.up p;
   Ok (value a, value e, value n, r)) =
  Ok (VArr [VInt 10; VInt 20; VInt 30], VInt 20, VInt 30, root).
Proof. reflexivity. Qed.

(** ** Round trips *)

Lemma entry_up (self : Instance) (l : list Value) (i : Z) :
  value self = VArr l ->
  0 <= i < Z.of_nat (length l) ->
  exists e : Instance, Zipper.entry self i = Ok e /\ Zipper.up e = Ok self.
Proof.
  intros Hv Hi.
  destruct (lookup_lt_is_Some_2 l (Z.to_nat i) ltac:(lia)) as [x Hx].
  rewrite (entry_ok self l i x) by (done || lia).
  eexists. split; [done|]. rewrite up_entry_crumb.
  rewrite take_drop_middle by done. destruct self. simpl in Hv. by subst.
Qed.

Lemma up_reselect (self : Instance) (tr : list Crumb) (c : Crumb) :
  trace self = tr ++ [c] ->
  crumb_typed c ->
  exists parent again : Instance,
    Zipper.up self = Ok parent /\
    reselect c parent = Ok again /\
    value again = value self.
Proof.
  destruct self as [v tr0]. simpl. intros -> Hc.
  destruct c as [name obj|before after].
  - destruct obj as [| | | | | |d]; try done.
    rewrite up_member_crumb. eexists. eexists. split; [done|]. simpl.
    rewrite (member_ok _ (PyDict.setitem name v d) name v)
      by (done || apply get_setitem_eq). done.
  - rewrite up_entry_crumb. eexists. eexists. split; [done|]. simpl.
    rewrite (entry_ok _ (before ++ v :: after) _ v); [done|done|lia|].
    rewrite Nat2Z.id. by rewrite list_lookup_middle.
Qed.

Lemma member_up_member (parent j : Instance) (name : string) :
  Zipper.member parent name = Ok j ->
  exists parent' j' : Instance,
    Zipper.up j = Ok parent' /\
    Zipper.member parent' name = Ok j' /\
    value j' = value j.
Proof.
  unfold Zipper.member.
  destruct (value parent) as [| | | | |l|d]; try done. simpl.
  unfold PyDict.pop. destruct (PyDict.get name d) as [x|]; [|done].
  simpl. intros [= <-].
  by apply (up_reselect _ (trace parent)
              (MemberCrumb name (VObj (PyDict.remove name d)))).
Qed.

Lemma entry_up_entry (parent j : Instance) (i : Z) :
  Zipper.entry parent i = Ok j ->
  exists parent' j' : Instance,
    Zipper.up j = Ok parent' /\
    Zipper.entry parent' i = Ok j' /\
    value j' = value j.
Proof.
  unfold Zipper.entry. destruct (value parent) as [| | | | |l|d]; try done.
  destruct (Py.getitem l i) as [x|e] eqn:Hget; [|by destruct e].
  simpl. intros [= <-]. rewrite up_entry_crumb.
  eexists. eexists. split; [done|]. simpl.
  rewrite (getitem_rezipped l i x Hget). simpl. done.
Qed.

(** A negative index counts from the end of the list. *)
Lemma getitem_neg {A} (l : list A) (i : Z) (x : A) :
  - Z.of_nat (length l) <= i < 0 ->
  l !! Z.to_nat (i + Z.of_nat (length l)) = Some x ->
  Py.getitem l i = Ok x.
Proof.
  intros Hi Hx. unfold Py.getitem, Py.norm_index.
  destruct (Z.ltb_spec i 0); [|lia].
  destruct (Z.leb_spec 0 (i + Z.of_nat (length l))); [|lia].
  destruct (Z.ltb_spec (i + Z.of_nat (length l)) (Z.of_nat (length l)));
    [|lia].
  simpl. by rewrite Hx.
Qed.

(** [entry(i)] followed by [up] gives back the receiver for every index
    [entry] accepts but -1: for [i <= -2] the slices [val[:i]] and
    [val[i+1:]] are the entries before and after the focus. *)
Lemma entry_up_below (self : Instance) (l : list Value) (i : Z) :
  value self = VArr l ->
  - Z.of_nat (length l) <= i < -1 ->
  exists e : Instance, Zipper.entry self i = Ok e /\ Zipper.up e = Ok self.
Proof.
  intros Hv Hi.
  destruct (lookup_lt_is_Some_2 l (Z.to_nat (i + Z.of_nat (length l)))
              ltac:(lia)) as [x Hx].
  unfold Zipper.entry. rewrite Hv.
  rewrite (getitem_neg l i x) by (done || lia). simpl.
  eexists. split; [done|]. rewrite up_entry_crumb.
  rewrite slice_to_neg, slice_from_neg by lia.
  replace (Z.to_nat (i + 1 + Z.of_nat (length l)))
    with (S (Z.to_nat (i + Z.of_nat (length l)))) by lia.
  rewrite take_drop_middle by done. destruct self. simpl in Hv. by subst.
Qed.

(** At -1 the slice [val[index+1:]] is [val[0:]], the whole array, so the
    crumb keeps every entry as coming after the last one, and [up] returns
    the array followed by itself. *)
Lemma entry_minus_one_up (self : Instance) (l : list Value) :
  value self = VArr l ->
  l <> [] ->
  exists x : Value,
    last l = Some x /\
    Zipper.entry self (-1) =
      Ok (mkInstance x (trace self ++ [EntryCrumb (removelast l) l])) /\
    Zipper.up (mkInstance x (trace self ++ [EntryCrumb (removelast l) l])) =
      Ok (mkInstance (VArr (l ++ l)) (trace self)).
Proof.
  intros Hv Hl.
  destruct l as [|y l'] using rev_ind; [done|]. clear IHl'.
  unfold Zipper.entry. rewrite Hv.
  rewrite getitem_last. simpl. rewrite slice_to_last, slice_from_zero.
  exists y. split; [by rewrite last_snoc|].
  rewrite removelast_last. split; [done|].
  rewrite up_entry_crumb. by rewrite <- app_assoc.
Qed.

(** C4: for every instance whose trace ends in a (well-typed) crumb, [up]
    followed by the selector step of that crumb succeeds and yields the
    original focus value; in particular, whenever [member(name)] or
    [entry(i)] has produced an instance, [up] followed by the same step
    yields a focus equal to the original one.  For every array focus and
    every index [entry] accepts, [-len <= i < len], other than -1,
    [entry(i)] followed by [up] yields the original array, in its order,
    under the original trace.  At the index -1 of a non-empty array,
    [entry] succeeds and [up] yields the array followed by itself, which is
    not the original array. *)
Theorem C4_up_then_reselect :
  (forall (self : Instance) (tr : list Crumb) (c : Crumb),
     trace self = tr ++ [c] ->
     crumb_typed c ->
     exists parent again : Instance,
       Zipper.up self = Ok parent /\
       reselect c parent = Ok again /\
       value again = value self) /\
  (forall (parent j : Instance) (name : string),
     Zipper.member parent name = Ok j ->
     exists parent' j' : Instance,
       Zipper.up j = Ok parent' /\
       Zipper.member parent' name = Ok j' /\
       value j' = value j) /\
  (forall (parent j : Instance) (i : Z),
     Zipper.entry parent i = Ok j ->
     exists parent' j' : Instance,
       Zipper.up j = Ok parent' /\
       Zipper.entry parent' i = Ok j' /\
       value j' = value j) /\
  (forall (self : Instance) (l : list Value) (i : Z),
     value self = VArr l ->
     - Z.of_nat (length l) <= i < Z.of_nat (length l) ->
     i <> -1 ->
     exists e parent : Instance,
       Zipper.entry self i = Ok e /\
       Zipper.up e = Ok parent /\
       value parent = VArr l /\ trace parent = trace self) /\
  (forall (self : Instance) (l : list Value),
     value self = VArr l ->
     l <> [] ->
     exists e parent : Instance,
       Zipper.entry self (-1) = Ok e /\
       Zipper.up e = Ok parent /\
       value parent = VArr (l ++ l) /\ trace parent = trace self /\
       value parent <> VArr l).
Proof.
  split; [apply up_reselect|].
  split; [apply member_up_member|].
  split; [apply entry_up_entry|].
  split.
  - intros self l i Hv Hi Hne.
    destruct (Z.ltb_spec i 0) as [Hneg|Hpos].
    + destruct (entry_up_below self l i Hv ltac:(lia)) as (e & He & Hup).
      exists e, self. by repeat split.
    + destruct (entry_up self l i Hv ltac:(lia)) as (e & He & Hup).
      exists e, self. by repeat split.
  - intros self l Hv Hl.
    destruct (entry_minus_one_up self l Hv Hl) as (x & _ & He & Hup).
    eexists. exists (mkInstance (VArr (l ++ l)) (trace self)).
    split; [exact He|]. split; [exact Hup|].
    repeat split; try done. simpl. intros [= Heq].
    apply (f_equal length) in Heq. rewrite length_app in Heq.
    destruct l; [done|]. simpl in Heq. lia.
Qed.

Lemma C4_up_then_reselect_witness :
  (exists parent again : Instance,
     Zipper.up (mkInstance (VInt 20)
                  [MemberCrumb "a" (VObj []);
                   EntryCrumb [VInt 10] [VInt 30]]) = Ok parent /\
     reselect (EntryCrumb [VInt 10] [VInt 30]) parent = Ok again /\
     value again = VInt 20) /\
  (exists parent' j' : Instance,
     Zipper.up (mkInstance (VInt 1) [MemberCrumb "x" (VObj [])])
       = Ok parent' /\
     Zipper.member parent' "x" = Ok j' /\
     value j' = VInt 1) /\
  (exists parent' j' : Instance,
     Zipper.up (mkInstance (VInt 30)
                  [EntryCrumb [VInt 10; VInt 20] [VInt 10; VInt 20; VInt 30]])
       = Ok parent' /\
     Zipper.entry parent' (-1) = Ok j' /\
     value j' = VInt 30) /\
  (exists e parent : Instance,
     Zipper.entry (mkInstance (VArr [VInt 10; VInt 20; VInt 30]) []) (-2)
       = Ok e /\
     Zipper.up e = Ok parent /\
     value parent = VArr [VInt 10; VInt 20; VInt 30] /\ trace parent = []) /\
  (exists e parent : Instance,
     Zipper.entry (mkInstance (VArr [VInt 10; VInt 20; VInt 30]) []) (-1)
       = Ok e /\
     Zipper.up e = Ok parent /\
     value parent =
       VArr [VInt 10; VInt 20; VInt 30; VInt 10; VInt 20; VInt 30] /\
     trace parent = [] /\
     value parent <> VArr [VInt 10; VInt 20; VInt 30]).
Proof.
  destruct C4_up_then_reselect
    as (Hcrumb & Hmember & Hentry & Hrebuilt & Hdoubled).
  split; [|split; [|split; [|split]]].
  - apply (Hcrumb
             (mkInstance (VInt 20)
                [MemberCrumb "a" (VObj []); EntryCrumb [VInt 10] [VInt 30]])
             [MemberCrumb "a" (VObj [])] (EntryCrumb [VInt 10] [VInt 30]));
      [reflexivity | exact I].
  - apply (Hmember (mkInstance (VObj [("x", VInt 1)]) [])
             (mkInstance (VInt 1) [MemberCrumb "x" (VObj [])]) "x").
    reflexivity.
  - apply (Hentry (mkInstance (VArr [VInt 10; VInt 20; VInt 30]) [])
             (mkInstance (VInt 30)
                [EntryCrumb [VInt 10; VInt 20]
                   [VInt 10; VInt 20; VInt 30]]) (-1)).
    reflexivity.
  - apply (Hrebuilt (mkInstance (VArr [VInt 10; VInt 20; VInt 30]) [])
             [VInt 10; VInt 20; VInt 30] (-2));
      [reflexivity | simpl; lia | lia].
  - apply (Hdoubled (mkInstance (VArr [VInt 10; VInt 20; VInt 30]) [])
             [VInt 10; VInt 20; VInt 30]); [reflexivity | discriminate].
Defined.

(** The index -1 is accepted by [entry], and [up] then does not rebuild the
    array: [val[index+1:]] is the whole array when [index] is -1. *)
Lemma entry_negative_up :
  (e ← Zipper.entry (mkInstance (VArr [VInt 10; VInt 20; VInt 30]) []) (-1);
   Zipper.up e) =
    Ok (mkInstance
          (VArr [VInt 10; VInt 20; VInt 30; VInt 10; VInt 20; VInt 30]) []).
Proof. reflexivity. Qed.

(** ** The store model: [member] writes no object that existed before *)
Module StoreFacts.
Import Store.

Section keeps.
Context (σ0 : store).

Lemma keeps_ret {A} (a : A) (Q : A -> Prop) : Q a -> keeps σ0 (ret a) Q.
Proof. intros Ha σ Hσ. split; [done|]. simpl. by intros ? [= <-]. Qed.

Lemma keeps_raise {A} (e : exn) (Q : A -> Prop) : keeps σ0 (raise e) Q.
Proof. intros σ Hσ. by split. Qed.

Lemma keeps_bind {A B} (m : M A) (k : A -> M B) (Q : A -> Prop)
    (R : B -> Prop) :
  keeps σ0 m Q -> (forall a, Q a -> keeps σ0 (k a) R) ->
  keeps σ0 (bind m k) R.
Proof.
  intros Hm Hk σ Hσ. unfold bind. destruct (Hm σ Hσ) as [H1 H2].
  destruct (m σ) as [[e|a] σ']; simpl in *; [done|].
  by apply (Hk a (H2 a eq_refl)).
Qed.

Lemma keeps_try_except {A} (m : M A) (h : exn -> option (M A))
    (Q : A -> Prop) :
  keeps σ0 m Q ->
  (forall e m', h e = Some m' -> keeps σ0 m' Q) ->
  keeps σ0 (try_except m h) Q.
Proof.
  intros Hm Hh σ Hσ. unfold try_except. destruct (Hm σ Hσ) as [H1 H2].
  destruct (m σ) as [[e|a] σ']; simpl in *; [|done].
  destruct (h e) as [m'|] eqn:He; [|done]. by apply (Hh e m' He).
Qed.

Lemma keeps_weaken {A} (m : M A) (Q R : A -> Prop) :
  keeps σ0 m Q -> (forall a, Q a -> R a) -> keeps σ0 m R.
Proof. intros Hm HQR σ Hσ. destruct (Hm σ Hσ). naive_solver. Qed.

Lemma keeps_alloc (o : obj) :
  keeps σ0 (alloc o) (fun r => exists l, r = RLoc l /\ σ0 !! l = None).
Proof.
  intros σ Hσ. unfold alloc. simpl.
  assert (σ !! fresh (dom σ) = None) as Hfresh
    by apply not_elem_of_dom, is_fresh.
  assert (σ0 !! fresh (dom σ) = None) as Hfresh0.
  { destruct (σ0 !! fresh (dom σ)) eqn:E; [|done].
    by rewrite (lookup_weaken _ _ _ _ E Hσ) in Hfresh. }
  split.
  - by apply insert_subseteq_r.
  - intros a [= <-]. eauto.
Qed.

Lemma keeps_deref (r : ref) : keeps σ0 (deref r) (fun _ => True).
Proof. intros σ Hσ. by destruct r. Qed.

Lemma keeps_write (l : loc) (o : obj) :
  σ0 !! l = None -> keeps σ0 (write l o) (fun _ => True).
Proof. intros Hl σ Hσ. split; [|done]. simpl. by apply insert_subseteq_r. Qed.

Lemma keeps_getattr_value (r : ref) :
  keeps σ0 (getattr_value r) (fun _ => True).
Proof.
  eapply keeps_bind; [apply keeps_deref|]. intros o _.
  destruct o as [[]|]; (by apply keeps_ret) || apply keeps_raise.
Qed.

Lemma keeps_getattr_trace (r : ref) :
  keeps σ0 (getattr_trace r) (fun _ => True).
Proof.
  eapply keeps_bind; [apply keeps_deref|]. intros o _.
  destruct o as [[]|]; (by apply keeps_ret) || apply keeps_raise.
Qed.

(** [copy] returns an object that is new with respect to [σ0]. *)
Lemma keeps_copy (r : ref) :
  keeps σ0 (copy r) (fun r' => exists l, r' = RLoc l /\ σ0 !! l = None).
Proof.
  eapply keeps_bind; [apply keeps_deref|]. intros o _.
  destruct o as [[]|]; apply keeps_alloc || apply keeps_raise.
Qed.

(** [pop] only writes the dictionary it is called on. *)
Lemma keeps_pop (l : loc) (name : string) :
  σ0 !! l = None -> keeps σ0 (pop (RLoc l) name) (fun _ => True).
Proof.
  intros Hl. eapply keeps_bind; [apply keeps_deref|]. intros o _.
  destruct o as [[d| | | |]|]; try apply keeps_raise.
  destruct (PyDict.pop name d) as [[x d']|]; [|apply keeps_raise].
  eapply keeps_bind; [by apply keeps_write|]. intros _ _. by apply keeps_ret.
Qed.

Lemma keeps_list_add (a b : ref) : keeps σ0 (list_add a b) (fun _ => True).
Proof.
  eapply keeps_bind; [apply keeps_deref|]. intros oa _.
  eapply keeps_bind; [apply keeps_deref|]. intros ob _.
  destruct oa as [[]|]; try apply keeps_raise.
  destruct ob as [[]|]; try apply keeps_raise.
  eapply keeps_weaken; [apply keeps_alloc|done].
Qed.

Lemma keeps_member (self : ref) (name : string) :
  keeps σ0 (member self name) (fun _ => True).
Proof.
  unfold member.
  eapply keeps_bind; [apply keeps_getattr_value|]. intros v _.
  eapply keeps_bind; [apply keeps_copy|]. intros obj (l & -> & Hl).
  apply keeps_try_except.
  - eapply keeps_bind; [by apply keeps_pop|]. intros x _.
    eapply keeps_bind; [apply keeps_getattr_trace|]. intros tr _.
    eapply keeps_bind; [apply keeps_alloc|]. intros cr _.
    eapply keeps_bind; [apply keeps_alloc|]. intros single _.
    eapply keeps_bind; [apply keeps_list_add|]. intros tr' _.
    eapply keeps_weaken; [apply keeps_alloc|done].
  - intros e m' He. destruct e; simplify_eq; apply keeps_raise.
Qed.

End keeps.

(** Whatever its outcome, [member] leaves every object of the store it
    started from as it was. *)
Lemma member_frame (σ : store) (self : ref) (name : string) :
  σ ⊆ (member self name σ).2.
Proof. by apply (keeps_member σ self name σ). Qed.


(** On a receiver whose focus is a dictionary holding [name], [member]
    returns a new instance focused on that member, with one more crumb that
    keeps a new dictionary without [name]. *)
Lemma member_returns (σ : store) (self lv lt : loc) (d : list (string * ref))
    (crumbs : list ref) (name : string) (x : ref) :
  σ !! self = Some (OInstance (RLoc lv) (RLoc lt)) ->
  σ !! lv = Some (ODict d) ->
  σ !! lt = Some (OList crumbs) ->
  PyDict.get name d = Some x ->
  exists (new lt' lc lo : loc) (σ' : store),
    member (RLoc self) name σ = (inr (RLoc new), σ') /\
    σ !! new = None /\
    σ' !! new = Some (OInstance x (RLoc lt')) /\
    σ' !! lt' = Some (OList (crumbs ++ [RLoc lc])) /\
    σ' !! lc = Some (OMemberCrumb name (RLoc lo)) /\
    σ' !! lo = Some (ODict (PyDict.remove name d)) /\
    σ !! lo = None.
Proof.
  intros Hself Hlv Hlt Hx.
  cbv beta iota zeta delta [member try_except bind getattr_value
    getattr_trace copy pop list_add deref alloc write ret raise PyDict.pop].
  rewrite Hself, Hlv. cbv beta iota zeta.
  set (lo := fresh (dom σ)).
  assert (σ !! lo = None) as Hlo by apply not_elem_of_dom, is_fresh.
  rewrite lookup_insert_eq, Hx. cbv beta iota zeta.
  rewrite insert_insert_eq.
  set (σ1 := <[lo := ODict (PyDict.remove name d)]> σ).
  assert (σ ⊆ σ1) as H1 by by apply insert_subseteq.
  rewrite (lookup_weaken _ _ _ _ Hself H1). cbv beta iota zeta.
  set (lc := fresh (dom σ1)).
  assert (σ1 !! lc = None) as Hlc by apply not_elem_of_dom, is_fresh.
  set (σ2 := <[lc := OMemberCrumb name (RLoc lo)]> σ1).
  assert (σ1 ⊆ σ2) as H2 by by apply insert_subseteq.
  set (ls := fresh (dom σ2)).
  assert (σ2 !! ls = None) as Hls by apply not_elem_of_dom, is_fresh.
  set (σ3 := <[ls := OList [RLoc lc]]> σ2).
  assert (σ2 ⊆ σ3) as H3 by by apply insert_subseteq.
  assert (σ ⊆ σ3) as H03 by (by etrans; [|etrans]).
  rewrite (lookup_weaken _ _ _ _ Hlt H03).
  unfold σ3 at 1. rewrite lookup_insert_eq. cbv beta iota zeta.
  set (lt' := fresh (dom σ3)).
  assert (σ3 !! lt' = None) as Hlt' by apply not_elem_of_dom, is_fresh.
  set (σ4 := <[lt' := OList (crumbs ++ [RLoc lc])]> σ3).
  assert (σ3 ⊆ σ4) as H4 by by apply insert_subseteq.
  set (new := fresh (dom σ4)).
  assert (σ4 !! new = None) as Hnew by apply not_elem_of_dom, is_fresh.
  set (σ5 := <[new := OInstance x (RLoc lt')]> σ4).
  assert (σ4 ⊆ σ5) as H5 by by apply insert_subseteq.
  exists new, lt', lc, lo, σ5. split; [done|].
  assert (σ ⊆ σ4) as H04 by by etrans.
  split.
  { destruct (σ !! new) eqn:E; [|done].
    by rewrite (lookup_weaken _ _ _ _ E H04) in Hnew. }
  split; [apply lookup_insert_eq|].
  split.
  { apply (lookup_weaken σ4); [apply lookup_insert_eq|done]. }
  split.
  { apply (lookup_weaken σ2); [apply lookup_insert_eq|].
    by etrans; [|etrans]. }
  split; [|done].
  apply (lookup_weaken σ1); [apply lookup_insert_eq|].
  etrans; [exact H2|]. by etrans; [|etrans].
Qed.

End StoreFacts.

(** C5: when the receiver's focus is a dictionary holding "x", [member("x")]
    succeeds and leaves the receiver as it was: the dictionary that is the
    receiver's focus still holds every entry it had ("x" with its value
    included), the receiver's [value] and [trace] fields and its trace list
    are unchanged, as is every other object of the store; the result is a new
    instance focused on the value of "x". *)
Theorem C5_member_leaves_receiver (σ : gmap Store.loc Store.obj)
    (self lv lt : Store.loc) (d : list (string * Store.ref))
    (crumbs : list Store.ref) (x : Store.ref) :
  σ !! self = Some (Store.OInstance (Store.RLoc lv) (Store.RLoc lt)) ->
  σ !! lv = Some (Store.ODict d) ->
  σ !! lt = Some (Store.OList crumbs) ->
  PyDict.get "x" d = Some x ->
  exists (new : Store.loc) (σ' : gmap Store.loc Store.obj),
    Store.member (Store.RLoc self) "x" σ = (inr (Store.RLoc new), σ') /\
    σ' !! self = Some (Store.OInstance (Store.RLoc lv) (Store.RLoc lt)) /\
    σ' !! lv = Some (Store.ODict d) /\
    σ' !! lt = Some (Store.OList crumbs) /\
    σ ⊆ σ' /\
    new <> self /\
    exists lt' : Store.loc, σ' !! new = Some (Store.OInstance x (Store.RLoc lt')).
Proof.
  intros Hself Hlv Hlt Hx.
  destruct (StoreFacts.member_returns σ self lv lt d crumbs "x" x
              Hself Hlv Hlt Hx)
    as (new & lt' & lc & lo & σ' & Hrun & Hnew & Hnew' & _).
  pose proof (StoreFacts.member_frame σ (Store.RLoc self) "x") as Hframe.
  rewrite Hrun in Hframe. simpl in Hframe.
  exists new, σ'. split; [done|].
  split; [by apply (lookup_weaken σ)|].
  split; [by apply (lookup_weaken σ)|].
  split; [by apply (lookup_weaken σ)|].
  split; [done|]. split; [congruence|]. eauto.
Qed.

Lemma C5_member_leaves_receiver_witness :
  let σ : gmap Store.loc Store.obj :=
    {[ 1%positive := Store.OInstance (Store.RLoc 2%positive) (Store.RLoc 3%positive);
       2%positive := Store.ODict [("x", Store.RInt 1); ("y", Store.RInt 2)];
       3%positive := Store.OList [] ]} in
  exists (new : Store.loc) (σ' : gmap Store.loc Store.obj),
    Store.member (Store.RLoc 1%positive) "x" σ = (inr (Store.RLoc new), σ') /\
    σ' !! 1%positive =
      Some (Store.OInstance (Store.RLoc 2%positive) (Store.RLoc 3%positive)) /\
    σ' !! 2%positive =
      Some (Store.ODict [("x", Store.RInt 1); ("y", Store.RInt 2)]) /\
    σ' !! 3%positive = Some (Store.OList []) /\
    σ ⊆ σ' /\
    new <> 1%positive /\
    exists lt' : Store.loc,
      σ' !! new = Some (Store.OInstance (Store.RInt 1) (Store.RLoc lt')).
Proof.
  apply (C5_member_leaves_receiver _ 1%positive 2%positive 3%positive
           [("x", Store.RInt 1); ("y", Store.RInt 2)] [] (Store.RInt 1));
    reflexivity.
Defined.

(** ** First occurrences *)
Section first_occurrences.
Context {P : Type} `{EqDecision P}.
Implicit Types (p q : P) (l : list P).

Lemma elem_of_first_occurrences p l : p ∈ first_occurrences l <-> p ∈ l.
Proof.
  induction l as [|q l IH]; simpl; [done|].
  rewrite !elem_of_cons, list_elem_of_filter, IH.
  destruct (decide (p = q)) as [->|Hne]; [by split; left|].
  split; [intros [?|[_ ?]]|intros [?|?]]; auto.
Qed.

Lemma NoDup_first_occurrences l : NoDup (first_occurrences l).
Proof.
  induction l as [|q l IH]; simpl; [constructor|].
  apply NoDup_cons. split; [|by apply NoDup_filter].
  rewrite list_elem_of_filter. by intros [? _].
Qed.

Lemma first_occurrences_snoc l p :
  first_occurrences (l ++ [p]) =
    if decide (p ∈ l) then first_occurrences l else first_occurrences l ++ [p].
Proof.
  induction l as [|q l IH].
  - cbn [app first_occurrences filter list_filter].
    destruct (decide (p ∈ [])) as [Hin|_]; [by apply elem_of_nil in Hin|done].
  - cbn [app first_occurrences]. rewrite IH. clear IH.
    destruct (decide (p ∈ l)) as [Hin|Hnin];
      destruct (decide (p ∈ q :: l)) as [Hin'|Hnin']; try done.
    + exfalso. apply Hnin'. by right.
    + apply elem_of_cons in Hin' as [->|?]; [|done].
      rewrite filter_app, filter_cons, filter_nil.
      rewrite decide_False by (by intros ?). by rewrite app_nil_r.
    + rewrite filter_app, filter_cons, filter_nil.
      rewrite decide_True; [done|]. intros ->. apply Hnin'. by left.
Qed.

Lemma length_first_occurrences l :
  length (first_occurrences l) = length (remove_dups l).
Proof.
  apply Permutation_length, NoDup_Permutation.
  - apply NoDup_first_occurrences.
  - apply NoDup_remove_dups.
  - intros p. by rewrite elem_of_first_occurrences, elem_of_remove_dups.
Qed.

End first_occurrences.

(** ** [union] *)
Section union.
Context {P : Type} `{EqDecision P}.
Implicit Types (n : Nodeset.Node P) (l s t : list (Nodeset.Node P)) (p : P).

Lemma dict_of_snoc l n :
  Nodeset.dict_of (l ++ [n]) =
    PyDict.setitem (Nodeset.path n) n (Nodeset.dict_of l).
Proof. unfold Nodeset.dict_of. by rewrite foldl_snoc. Qed.

Lemma last_with_path_snoc p l n :
  last_with_path p (l ++ [n]) =
    if decide (Nodeset.path n = p) then Some n else last_with_path p l.
Proof.
  unfold last_with_path. rewrite filter_app, filter_cons, filter_nil.
  destruct (decide (Nodeset.path n = p)).
  - by rewrite last_snoc.
  - by rewrite app_nil_r.
Qed.

Lemma last_with_path_path p l n :
  last_with_path p l = Some n -> Nodeset.path n = p /\ n ∈ l.
Proof.
  unfold last_with_path. intros Hl%last_Some_elem_of.
  by apply list_elem_of_filter in Hl.
Qed.

Lemma last_with_path_is_Some p l :
  is_Some (last_with_path p l) <-> p ∈ Nodeset.path <$> l.
Proof.
  unfold last_with_path. rewrite last_is_Some. split.
  - intros Hne. destruct (filter _ l) as [|n k] eqn:E; [done|].
    assert (n ∈ filter (fun n => Nodeset.path n = p) l) as Hn
      by (rewrite E; by left).
    apply list_elem_of_filter in Hn as [<- Hn]. by apply list_elem_of_fmap_2.
  - intros (n & -> & Hn)%list_elem_of_fmap Hnil.
    assert (n ∈ filter (fun m => Nodeset.path m = Nodeset.path n) l) as Hin
      by by apply list_elem_of_filter.
    rewrite Hnil in Hin. by apply elem_of_nil in Hin.
Qed.

Lemma last_with_path_app_r p s t :
  p ∈ Nodeset.path <$> t ->
  last_with_path p (s ++ t) = last_with_path p t.
Proof.
  intros [n Hn]%last_with_path_is_Some. unfold last_with_path in *.
  rewrite filter_app, last_app. by rewrite Hn.
Qed.

(** The keys of the dictionary are the paths in the order of their first
    occurrence, and the value under a path is the last node that has it. *)
Lemma keys_dict_of l :
  PyDict.keys (Nodeset.dict_of l) = first_occurrences (Nodeset.path <$> l).
Proof.
  induction l as [|n l IH] using rev_ind; [done|].
  rewrite dict_of_snoc, keys_setitem, IH, fmap_app. simpl.
  rewrite first_occurrences_snoc.
  destruct (decide (Nodeset.path n ∈ Nodeset.path <$> l)).
  - rewrite decide_True; [done|]. by apply elem_of_first_occurrences.
  - rewrite decide_False; [done|]. by rewrite elem_of_first_occurrences.
Qed.

Lemma get_dict_of p l :
  PyDict.get p (Nodeset.dict_of l) = last_with_path p l.
Proof.
  induction l as [|n l IH] using rev_ind; [done|].
  rewrite dict_of_snoc, last_with_path_snoc.
  destruct (decide (Nodeset.path n = p)) as [<-|Hne].
  - apply get_setitem_eq.
  - by rewrite get_setitem_ne.
Qed.

Lemma dict_of_entries l :
  Forall (fun kv => last_with_path kv.1 l = Some kv.2) (Nodeset.dict_of l).
Proof.
  eapply Forall_impl.
  - apply get_entries. rewrite keys_dict_of. apply NoDup_first_occurrences.
  - intros [p n]. simpl. by rewrite get_dict_of.
Qed.

(** The nodes of [union s t], against the distinct paths of [s ++ t] in the
    order of their first occurrence: each is the last node with its path. *)
Lemma union_nodes s t :
  Forall2 (fun n p => last_with_path p (s ++ t) = Some n)
    (Nodeset.union s t) (first_occurrences (Nodeset.path <$> (s ++ t))).
Proof.
  unfold Nodeset.union. rewrite <- keys_dict_of.
  unfold PyDict.values, PyDict.keys.
  apply Forall2_fmap, Forall_Forall2_diag.
  eapply Forall_impl; [apply dict_of_entries|]. by intros [p n].
Qed.

Lemma nodes_paths l (u : list (Nodeset.Node P)) (ps : list P) :
  Forall2 (fun n p => last_with_path p l = Some n) u ps ->
  Nodeset.path <$> u = ps.
Proof.
  induction 1 as [|n p u ps Hn _ IH]; [done|].
  rewrite fmap_cons. f_equal; [|done].
  by apply last_with_path_path in Hn as [? _].
Qed.

Lemma nodes_elem l (u : list (Nodeset.Node P)) (ps : list P) n :
  Forall2 (fun n p => last_with_path p l = Some n) u ps ->
  n ∈ u -> last_with_path (Nodeset.path n) l = Some n.
Proof.
  induction 1 as [|m p u ps Hm _ IH]; [by intros ?%elem_of_nil|].
  intros [->|Hn]%elem_of_cons; [|by apply IH].
  by destruct (last_with_path_path _ _ _ Hm) as [-> _].
Qed.

(** C6: [s.union(t)] holds exactly one node per distinct path of [s] and [t]
    (its paths are without repetition and are those of [s ++ t], so its size
    is the number of distinct paths); each node kept is the last one of
    [s ++ t] with its path, hence [t]'s (last) occurrence whenever [t] has
    the path; and the nodes come in the order in which their paths first
    occur scanning [s] and then [t]. *)
Theorem C6_union_dedup_precedence_order (s t : list (Nodeset.Node P)) :
  let u := Nodeset.union s t in
  NoDup (Nodeset.path <$> u) /\
  (forall p, p ∈ Nodeset.path <$> u <-> p ∈ Nodeset.path <$> (s ++ t)) /\
  length u = length (remove_dups (Nodeset.path <$> (s ++ t))) /\
  (forall n, n ∈ u -> last_with_path (Nodeset.path n) (s ++ t) = Some n) /\
  (forall n, n ∈ u -> Nodeset.path n ∈ Nodeset.path <$> t ->
             last_with_path (Nodeset.path n) t = Some n /\ n ∈ t) /\
  Nodeset.path <$> u = first_occurrences (Nodeset.path <$> (s ++ t)).
Proof.
  simpl. pose proof (nodes_paths _ _ _ (union_nodes s t)) as Hpaths.
  split; [rewrite Hpaths; apply NoDup_first_occurrences|].
  split; [intros p; by rewrite Hpaths, elem_of_first_occurrences|].
  split.
  { rewrite <- (length_fmap Nodeset.path), Hpaths.
    apply length_first_occurrences. }
  split; [intros n; eapply nodes_elem, union_nodes|].
  split; [|done].
  intros n Hn Ht.
  pose proof (nodes_elem _ _ _ n (union_nodes s t) Hn) as Hlast.
  rewrite last_with_path_app_r in Hlast by done.
  split; [done|]. by apply last_with_path_path in Hlast as [_ ?].
Qed.

End union.

Example union_example :
  let node (p : nat) (s : string) : Nodeset.Node nat :=
    Nodeset.mkNode p (VStr s) false s in
  Nodeset.union [node 1%nat "a"; node 2%nat "b"]
                [node 2%nat "c"; node 3%nat "d"; node 1%nat "e"] =
    [node 1%nat "e"; node 2%nat "c"; node 3%nat "d"].
Proof. reflexivity. Qed.


(** ** Node-set coercions and comparisons *)
Section comparisons.
Context {P : Type} `{EqDecision P}.
Variable float_of_str : string -> option float.
Implicit Types (n : Nodeset.Node P) (ns self : list (Nodeset.Node P)).

(** C10: string coercion of a node-set never fails: on the empty node-set
    it returns the empty string, and on a non-empty one the string form of
    the first member. *)
Theorem C10_str_of_node_set :
  Nodeset.__str__ (@nil (Nodeset.Node P)) = Ok EmptyString /\
  (forall n ns, Nodeset.__str__ (n :: ns) = Ok (Nodeset.str n)) /\
  (forall ns, is_ok (Nodeset.__str__ ns) = true).
Proof.
  split; [done|]. split; [done|]. by intros [|n ns].
Qed.

(** Numeric coercion, by contrast, does fail on the empty node-set. *)
Lemma float_of_empty_node_set :
  Nodeset.__float__ float_of_str (@nil (Nodeset.Node P)) = Raise IndexError.
Proof. done. Qed.

Lemma float_of_node_set n ns :
  Nodeset.__float__ float_of_str (n :: ns) =
    Nodeset.py_float float_of_str (Nodeset.value n).
Proof. done. Qed.




(** The coercion of a scalar argument raises nothing but [ValueError]. *)
Lemma py_float_scalar (v : Nodeset.Scalar) :
  (exists f, Nodeset.py_float float_of_str (Nodeset.scalar_value v) = Ok f) \/
  Nodeset.py_float float_of_str (Nodeset.scalar_value v) = Raise ValueError.
Proof.
  destruct v as [s|f|[]]; simpl; eauto.
  destruct (float_of_str s); eauto.
Qed.



(** The ordering loops do not look at [is_internal]: a member whose value
    coerces and satisfies the operator decides the comparison. *)
Lemma ordering_loop_head (op : float -> float -> bool) n ns (f x : float) :
  Nodeset.py_float float_of_str (Nodeset.value n) = Ok f ->
  op f x = true ->
  Nodeset.ordering_loop float_of_str op (n :: ns) x = Ok true.
Proof. intros Hf Hop. simpl. by rewrite Hf, Hop. Qed.







End comparisons.



(** The OR over members of the specification's example. *)
Example eq_or_semantics :
  let node (p : nat) (s : string) : Nodeset.Node nat :=
    Nodeset.mkNode p (VStr s) false s in
  forall fos : string -> option float,
    Nodeset.__eq__ fos [node 1%nat "1"; node 2%nat "2"]
      (Nodeset.XScalar (Nodeset.SStr "2")) = Ok true /\
    Nodeset.__eq__ fos [node 1%nat "1"; node 2%nat "2"]
      (Nodeset.XScalar (Nodeset.SStr "3")) = Ok false.
Proof. by split. Qed.

(** * Further properties of the zipper *)

(** ** Moving along an array *)

Lemma snoc_or_nil {A} (tr : list A) :
  tr = [] \/ exists tr' c, tr = tr' ++ [c].
Proof. destruct tr as [|c tr] using rev_ind; eauto. Qed.

Lemma next_inv (self j : Instance) :
  Zipper.next self = Ok j ->
  exists tr before x after,
    trace self = tr ++ [EntryCrumb before (x :: after)] /\
    j = mkInstance x (tr ++ [EntryCrumb (before ++ [value self]) after]).
Proof.
  destruct self as [v tr0].
  destruct (snoc_or_nil tr0) as [->|(tr & c & ->)].
  - unfold Zipper.next. by rewrite crumb_root.
  - destruct c as [name obj|before [|x after]].
    + by rewrite (next_member_crumb v tr name obj).
    + by rewrite (next_of_last v tr before).
    + rewrite next_ok. intros [= <-]. by eexists _, _, _, _.
Qed.

Lemma previous_inv (self j : Instance) :
  Zipper.previous self = Ok j ->
  exists tr before x after,
    trace self = tr ++ [EntryCrumb (before ++ [x]) after] /\
    j = mkInstance x (tr ++ [EntryCrumb before (value self :: after)]).
Proof.
  destruct self as [v tr0].
  destruct (snoc_or_nil tr0) as [->|(tr & c & ->)].
  - unfold Zipper.previous. by rewrite crumb_root.
  - destruct c as [name obj|before after].
    + by rewrite (previous_member_crumb v tr name obj).
    + destruct (snoc_or_nil before) as [->|(b & x & ->)];
        [by rewrite (previous_of_first v tr after)|].
      rewrite previous_ok. intros [= <-]. by eexists _, _, _, _.
Qed.

(** X6: next and previous are inverse to each other: whenever next succeeds,
    previous on its result returns the receiver, and whenever previous
    succeeds, next on its result returns the receiver. *)
Theorem next_previous_inverse (self j : Instance) :
  (Zipper.next self = Ok j -> Zipper.previous j = Ok self) /\
  (Zipper.previous self = Ok j -> Zipper.next j = Ok self).
Proof.
  split.
  - intros (tr & b & x & a & Htr & ->)%next_inv.
    rewrite previous_ok. destruct self; simpl in *; by subst.
  - intros (tr & b & x & a & Htr & ->)%previous_inv.
    rewrite next_ok. destruct self; simpl in *; by subst.
Qed.

Lemma next_previous_inverse_witness :
  let self := mkInstance (VInt 20) [EntryCrumb [VInt 10] [VInt 30]] in
  let j := mkInstance (VInt 30) [EntryCrumb [VInt 10; VInt 20] []] in
  Zipper.previous j = Ok self /\ Zipper.next self = Ok j.
Proof.
  split.
  - apply (proj1 (next_previous_inverse
             (mkInstance (VInt 20) [EntryCrumb [VInt 10] [VInt 30]])
             (mkInstance (VInt 30) [EntryCrumb [VInt 10; VInt 20] []]))).
    reflexivity.
  - apply (proj2 (next_previous_inverse
             (mkInstance (VInt 30) [EntryCrumb [VInt 10; VInt 20] []])
             (mkInstance (VInt 20) [EntryCrumb [VInt 10] [VInt 30]]))).
    reflexivity.
Defined.

(** X7: Moving to a neighbour changes neither the parent that [up] rebuilds nor
    the rest of the trace. *)
Theorem next_previous_same_parent (self j : Instance) :
  Zipper.next self = Ok j \/ Zipper.previous self = Ok j ->
  exists parent, Zipper.up self = Ok parent /\ Zipper.up j = Ok parent.
Proof.
  intros [H|H].
  - apply next_inv in H as (tr & b & x & a & Htr & ->).
    destruct self as [v tr0]; simpl in *; subst.
    rewrite !up_entry_crumb. eexists. split; [done|].
    by rewrite <- app_assoc.
  - apply previous_inv in H as (tr & b & x & a & Htr & ->).
    destruct self as [v tr0]; simpl in *; subst.
    rewrite !up_entry_crumb. eexists. split; [done|].
    by rewrite <- app_assoc.
Qed.

Lemma next_previous_same_parent_witness :
  exists parent,
    Zipper.up (mkInstance (VInt 20) [EntryCrumb [VInt 10] [VInt 30]])
      = Ok parent /\
    Zipper.up (mkInstance (VInt 30) [EntryCrumb [VInt 10; VInt 20] []])
      = Ok parent.
Proof.
  apply (next_previous_same_parent
           (mkInstance (VInt 20) [EntryCrumb [VInt 10] [VInt 30]])
           (mkInstance (VInt 30) [EntryCrumb [VInt 10; VInt 20] []])).
  left. reflexivity.
Defined.

(** X8: [entry(i).next] is [entry(i+1)]. *)
Theorem entry_next (self : Instance) (l : list Value) (i : Z) :
  value self = VArr l ->
  0 <= i -> i + 1 < Z.of_nat (length l) ->
  exists e, Zipper.entry self i = Ok e /\
            Zipper.next e = Zipper.entry self (i + 1) /\
            is_ok (Zipper.next e) = true.
Proof.
  intros Hv Hi Hlen.
  destruct (lookup_lt_is_Some_2 l (Z.to_nat i) ltac:(lia)) as [x Hx].
  destruct (lookup_lt_is_Some_2 l (S (Z.to_nat i)) ltac:(lia)) as [y Hy].
  rewrite (entry_ok self l i x) by (done || lia).
  rewrite (entry_ok self l (i + 1) y Hv ltac:(lia))
    by (by replace (Z.to_nat (i + 1)) with (S (Z.to_nat i)) by lia).
  eexists. split; [done|].
  rewrite (drop_S l y (S (Z.to_nat i))) by done.
  rewrite next_ok. split; [|done]. do 4 f_equal.
  replace (Z.to_nat (i + 1)) with (S (Z.to_nat i)) by lia.
  by rewrite (take_S_r l (Z.to_nat i) x).
Qed.

Lemma entry_next_witness :
  exists e,
    Zipper.entry (mkInstance (VArr [VInt 10; VInt 20; VInt 30]) []) 1 = Ok e /\
    Zipper.next e =
      Zipper.entry (mkInstance (VArr [VInt 10; VInt 20; VInt 30]) []) (1 + 1) /\
    is_ok (Zipper.next e) = true.
Proof.
  apply (entry_next (mkInstance (VArr [VInt 10; VInt 20; VInt 30]) [])
           [VInt 10; VInt 20; VInt 30] 1); [reflexivity|lia|simpl; lia].
Defined.

(** ** Editing an array through the zipper *)

Lemma insert_before_ok (v x : Value) (tr : list Crumb)
    (before after : list Value) :
  Zipper.insert_before (mkInstance v (tr ++ [EntryCrumb before after])) x =
    Ok (mkInstance x (tr ++ [EntryCrumb before (v :: after)])).
Proof.
  unfold Zipper.insert_before. rewrite crumb_last. cbn.
  by rewrite replace_crumb_last.
Qed.

Lemma insert_after_ok (v x : Value) (tr : list Crumb)
    (before after : list Value) :
  Zipper.insert_after (mkInstance v (tr ++ [EntryCrumb before after])) x =
    Ok (mkInstance x (tr ++ [EntryCrumb (before ++ [v]) after])).
Proof.
  unfold Zipper.insert_after. rewrite crumb_last. cbn.
  by rewrite replace_crumb_last.
Qed.

(** X9: For k < len, entry(k).insert_before(v).up is the receiver with v
    inserted in the array just before the k-th entry, and
    entry(k).insert_after(v).up is the receiver with v inserted just after
    it; the array grows by one and keeps the order of the other entries. *)
Theorem entry_insert_up (self : Instance) (l : list Value) (k : nat)
    (v : Value) :
  value self = VArr l ->
  (k < length l)%nat ->
  (e ← Zipper.entry self (Z.of_nat k);
   i ← Zipper.insert_before e v; Zipper.up i) =
    Ok (mkInstance (VArr (take k l ++ v :: drop k l)) (trace self)) /\
  (e ← Zipper.entry self (Z.of_nat k);
   i ← Zipper.insert_after e v; Zipper.up i) =
    Ok (mkInstance (VArr (take (S k) l ++ v :: drop (S k) l)) (trace self)).
Proof.
  intros Hv Hk.
  destruct (lookup_lt_is_Some_2 l k Hk) as [x Hx].
  rewrite (entry_ok self l (Z.of_nat k) x) by (rewrite ?Nat2Z.id; done || lia).
  rewrite Nat2Z.id. cbn [mbind result_bind].
  rewrite insert_before_ok, insert_after_ok. cbn [mbind result_bind].
  rewrite !up_entry_crumb. split.
  - by rewrite (drop_S l x k).
  - by rewrite (take_S_r l k x), <- app_assoc.
Qed.

Lemma entry_insert_up_witness :
  let self := mkInstance (VArr [VInt 10; VInt 20; VInt 30]) [] in
  (e ← Zipper.entry self (Z.of_nat 1);
   i ← Zipper.insert_before e (VInt 15); Zipper.up i) =
    Ok (mkInstance (VArr [VInt 10; VInt 15; VInt 20; VInt 30]) []) /\
  (e ← Zipper.entry self (Z.of_nat 1);
   i ← Zipper.insert_after e (VInt 25); Zipper.up i) =
    Ok (mkInstance (VArr [VInt 10; VInt 20; VInt 25; VInt 30]) []).
Proof.
  split.
  - apply (proj1 (entry_insert_up
             (mkInstance (VArr [VInt 10; VInt 20; VInt 30]) [])
             [VInt 10; VInt 20; VInt 30] 1 (VInt 15) eq_refl ltac:(simpl; lia))).
  - apply (proj2 (entry_insert_up
             (mkInstance (VArr [VInt 10; VInt 20; VInt 30]) [])
             [VInt 10; VInt 20; VInt 30] 1 (VInt 25) eq_refl ltac:(simpl; lia))).
Defined.

(** X10: [entry(k).update(v).up] replaces the entry at [k] and nothing else. *)
Theorem entry_update_up (self : Instance) (l : list Value) (k : nat)
    (v : Value) :
  value self = VArr l ->
  (k < length l)%nat ->
  (e ← Zipper.entry self (Z.of_nat k); Zipper.up (Zipper.update e v)) =
    Ok (mkInstance (VArr (<[k := v]> l)) (trace self)).
Proof.
  intros Hv Hk.
  destruct (lookup_lt_is_Some_2 l k Hk) as [x Hx].
  rewrite (entry_ok self l (Z.of_nat k) x) by (rewrite ?Nat2Z.id; done || lia).
  rewrite Nat2Z.id. cbn [mbind result_bind]. unfold Zipper.update. simpl.
  rewrite up_entry_crumb. by rewrite insert_take_drop.
Qed.

Lemma entry_update_up_witness :
  (e ← Zipper.entry (mkInstance (VArr [VInt 10; VInt 20; VInt 30]) [])
         (Z.of_nat 1);
   Zipper.up (Zipper.update e (VStr "x"))) =
    Ok (mkInstance (VArr (<[1%nat := VStr "x"]> [VInt 10; VInt 20; VInt 30]))
          []).
Proof.
  apply (entry_update_up (mkInstance (VArr [VInt 10; VInt 20; VInt 30]) [])
           [VInt 10; VInt 20; VInt 30] 1 (VStr "x") eq_refl).
  simpl. lia.
Defined.

(** ** Editing an object through the zipper *)
Section dict_remove.
Context {K V : Type} `{EqDecision K}.
Implicit Types (d : list (K * V)) (k : K) (v : V).

Lemma get_remove_ne k k' d :
  k' <> k -> PyDict.get k' (PyDict.remove k d) = PyDict.get k' d.
Proof.
  intros Hne. induction d as [|[k0 v0] d IH]; simpl; [done|].
  destruct (decide (k = k0)) as [->|Hne0]; simpl.
  - by rewrite decide_False.
  - by rewrite IH.
Qed.

Lemma get_None_keys k d : PyDict.get k d = None <-> k ∉ PyDict.keys d.
Proof.
  unfold PyDict.keys. induction d as [|[k0 v0] d IH]; simpl.
  - split; [intros _ ?%elem_of_nil|]; done.
  - rewrite not_elem_of_cons. destruct (decide (k = k0)) as [->|Hne].
    + split; [done|]. by intros [? _].
    + rewrite IH. split; [by intros ?|by intros [_ ?]].
Qed.

Lemma get_remove_eq k d :
  NoDup (PyDict.keys d) -> PyDict.get k (PyDict.remove k d) = None.
Proof.
  unfold PyDict.keys. induction d as [|[k0 v0] d IH]; simpl; [done|].
  intros [Hk0 Hd]%NoDup_cons. destruct (decide (k = k0)) as [->|Hne]; simpl.
  - by apply get_None_keys.
  - rewrite decide_False by done. by apply IH.
Qed.

Lemma setitem_absent k v d :
  PyDict.get k d = None -> PyDict.setitem k v d = d ++ [(k, v)].
Proof.
  induction d as [|[k0 v0] d IH]; simpl; [done|].
  destruct (decide (k = k0)); [done|]. intros Hd. by rewrite IH.
Qed.

End dict_remove.

(** X11: [member(name).update(v).up] gives the member the value [v] and leaves
    every other member's value; in a dictionary without repeated keys the
    member ends up last. *)
Theorem member_update_up (self : Instance) (d : list (string * Value))
    (name : string) (x v : Value) :
  value self = VObj d ->
  PyDict.get name d = Some x ->
  exists d',
    (j ← Zipper.member self name; Zipper.up (Zipper.update j v)) =
      Ok (mkInstance (VObj d') (trace self)) /\
    PyDict.get name d' = Some v /\
    (forall k, k <> name -> PyDict.get k d' = PyDict.get k d) /\
    (NoDup (PyDict.keys d) -> d' = PyDict.remove name d ++ [(name, v)]).
Proof.
  intros Hv Hx. rewrite (member_ok self d name x) by done.
  cbn [mbind result_bind]. unfold Zipper.update. simpl.
  rewrite up_member_crumb. eexists. split; [done|].
  split; [apply get_setitem_eq|]. split.
  - intros k Hk. by rewrite get_setitem_ne, get_remove_ne.
  - intros Hnd. by apply setitem_absent, get_remove_eq.
Qed.

Lemma member_update_up_witness :
  exists d',
    (j ← Zipper.member
           (mkInstance (VObj [("a", VInt 1); ("b", VInt 2)]) []) "a";
     Zipper.up (Zipper.update j (VInt 1))) =
      Ok (mkInstance (VObj d') []) /\
    PyDict.get "a" d' = Some (VInt 1) /\
    (forall k, k <> "a"%string ->
               PyDict.get k d' = PyDict.get k [("a", VInt 1); ("b", VInt 2)]) /\
    (NoDup (PyDict.keys [("a"%string, VInt 1); ("b"%string, VInt 2)]) ->
     d' = PyDict.remove "a" [("a", VInt 1); ("b", VInt 2)] ++ [("a"%string, VInt 1)]).
Proof.
  apply (member_update_up
           (mkInstance (VObj [("a", VInt 1); ("b", VInt 2)]) [])
           [("a", VInt 1); ("b", VInt 2)] "a" (VInt 1) (VInt 1));
    reflexivity.
Defined.

(** X12: [new_member(name, v).up]: the new member is appended, the others keep
    their place and value. *)
Theorem new_member_up (self : Instance) (d : list (string * Value))
    (name : string) (v : Value) :
  value self = VObj d ->
  PyDict.get name d = None ->
  (j ← Zipper.new_member self name v; Zipper.up j) =
    Ok (mkInstance (VObj (d ++ [(name, v)])) (trace self)).
Proof.
  intros Hv Hd. rewrite (new_member_ok self d) by done.
  cbn [mbind result_bind]. rewrite up_member_crumb.
  by rewrite setitem_absent.
Qed.

Lemma new_member_up_witness :
  (j ← Zipper.new_member (mkInstance (VObj [("a", VInt 1)]) []) "b" (VInt 2);
   Zipper.up j) =
    Ok (mkInstance (VObj ([("a", VInt 1)] ++ [("b"%string, VInt 2)])) []).
Proof.
  apply (new_member_up (mkInstance (VObj [("a", VInt 1)]) [])
           [("a", VInt 1)] "b" (VInt 2)); reflexivity.
Defined.

(** ** [sibling] *)

Lemma sibling_ok (v : Value) (tr : list Crumb) (a b : string)
    (d : list (string * Value)) (y : Value) :
  PyDict.get b d = Some y ->
  Zipper.sibling (mkInstance v (tr ++ [MemberCrumb a (VObj d)])) b =
    Ok (mkInstance y
          (tr ++ [MemberCrumb b (VObj (PyDict.setitem a v (PyDict.remove b d)))])).
Proof.
  intros Hy. unfold Zipper.sibling. rewrite crumb_last. cbn.
  unfold PyDict.pop. rewrite Hy. cbn. by rewrite replace_crumb_last.
Qed.

(** X13: From the member [a] of an object, [sibling(b)] reaches what [member(b)]
    reaches from the object itself, and going [up] from there gives an object
    with the values of the original one. *)
Theorem member_sibling (self : Instance) (d : list (string * Value))
    (a b : string) (x y : Value) :
  value self = VObj d ->
  PyDict.get a d = Some x ->
  PyDict.get b d = Some y ->
  a <> b ->
  exists j s jb d',
    Zipper.member self a = Ok j /\
    Zipper.sibling j b = Ok s /\
    Zipper.member self b = Ok jb /\
    value s = value jb /\
    Zipper.pointer_fragment <$> trace s = Zipper.pointer_fragment <$> trace jb /\
    Zipper.up s = Ok (mkInstance (VObj d') (trace self)) /\
    (forall k, PyDict.get k d' = PyDict.get k d).
Proof.
  intros Hv Ha Hb Hne.
  rewrite (member_ok self d a x), (member_ok self d b y) by done.
  exists (mkInstance x
            (trace self ++ [MemberCrumb a (VObj (PyDict.remove a d))])).
  rewrite (sibling_ok x (trace self) a b _ y)
    by (by rewrite get_remove_ne).
  eexists _, _, _. split; [done|]. split; [done|]. split; [done|].
  split; [done|]. split; [simpl; by rewrite !fmap_app|].
  rewrite up_member_crumb. split; [done|].
  intros k. destruct (decide (k = b)) as [->|Hkb].
  - by rewrite get_setitem_eq.
  - rewrite get_setitem_ne by done. destruct (decide (k = a)) as [->|Hka].
    + by rewrite get_setitem_eq.
    + by rewrite get_setitem_ne, !get_remove_ne.
Qed.

Lemma member_sibling_witness :
  let self := mkInstance (VObj [("a", VInt 1); ("b", VInt 2)]) [] in
  exists j s jb d',
    Zipper.member self "a" = Ok j /\
    Zipper.sibling j "b" = Ok s /\
    Zipper.member self "b" = Ok jb /\
    value s = value jb /\
    Zipper.pointer_fragment <$> trace s = Zipper.pointer_fragment <$> trace jb /\
    Zipper.up s = Ok (mkInstance (VObj d') (trace self)) /\
    (forall k, PyDict.get k d' = PyDict.get k [("a", VInt 1); ("b", VInt 2)]).
Proof.
  apply (member_sibling
           (mkInstance (VObj [("a", VInt 1); ("b", VInt 2)]) [])
           [("a", VInt 1); ("b", VInt 2)] "a" "b" (VInt 1) (VInt 2));
    (reflexivity || discriminate).
Defined.

(** X14: The failures of [sibling]: no crumb gives [InstanceTypeError], a missing
    name [NonexistentInstance], but under an entry crumb the built-in
    [AttributeError] of [cr.object] escapes. *)
Theorem sibling_failures (v : Value) (tr : list Crumb) (name : string) :
  Zipper.sibling (mkInstance v []) name =
    Raise (InstanceTypeError (mkInstance v []) "sibling of non-member") /\
  (forall before after,
     Zipper.sibling (mkInstance v (tr ++ [EntryCrumb before after])) name =
       Raise AttributeError) /\
  (forall a d,
     PyDict.get name d = None ->
     let self := mkInstance v (tr ++ [MemberCrumb a (VObj d)]) in
     Zipper.sibling self name =
       Raise (NonexistentInstance self ("member " +:+ name))).
Proof.
  split; [|split].
  - unfold Zipper.sibling. by rewrite crumb_root.
  - intros before after. unfold Zipper.sibling. by rewrite crumb_last.
  - intros a d Hd. simpl. unfold Zipper.sibling. rewrite crumb_last. cbn.
    unfold PyDict.pop. by rewrite Hd.
Qed.

(** ** Which indices [entry] accepts, and how it fails *)

Lemma getitem_range {A} (l : list A) (i : Z) :
  is_ok (Py.getitem l i) = true <->
  - Z.of_nat (length l) <= i < Z.of_nat (length l).
Proof.
  unfold Py.getitem.
  assert (0 <= Py.norm_index (Z.of_nat (length l)) i < Z.of_nat (length l)
          <-> - Z.of_nat (length l) <= i < Z.of_nat (length l)) as Hj.
  { unfold Py.norm_index. destruct (Z.ltb_spec i 0); lia. }
  destruct (Z.leb_spec 0 (Py.norm_index (Z.of_nat (length l)) i));
    destruct (Z.ltb_spec (Py.norm_index (Z.of_nat (length l)) i)
                (Z.of_nat (length l))); simpl;
    try (split; [done|intros ?%Hj; lia]).
  destruct (lookup_lt_is_Some_2 l
              (Z.to_nat (Py.norm_index (Z.of_nat (length l)) i))
              ltac:(lia)) as [x ->].
  simpl. split; [intros _; apply Hj; lia|done].
Qed.

Lemma getitem_raises {A} (l : list A) (i : Z) (e : exn) :
  Py.getitem l i = Raise e -> e = IndexError.
Proof.
  unfold Py.getitem. destruct (_ && _); [|by intros [= <-]].
  destruct (l !! _); [done|by intros [= <-]].
Qed.

(** X4: entry(i) succeeds exactly when the focus is an array and -len <= i <
    len (negative indices are accepted); every failure is
    InstanceTypeError (focus not an array) or NonexistentInstance with
    text 'entry ' + str(i), both carrying the receiver, never a built-in
    exception. *)
Theorem entry_outcomes (self : Instance) (i : Z) :
  (is_ok (Zipper.entry self i) = true <->
   exists l, value self = VArr l /\
             - Z.of_nat (length l) <= i < Z.of_nat (length l)) /\
  (forall e, Zipper.entry self i = Raise e ->
     (e = InstanceTypeError self "entry of non-array" /\
      forall l, value self <> VArr l) \/
     e = NonexistentInstance self ("entry " +:+ pretty i)).
Proof.
  unfold Zipper.entry.
  destruct (value self) as [| | | | |l|d];
    try (split; [split; [done|by intros (? & ? & _)]|];
         intros e [= <-]; left; by split).
  pose proof (getitem_range l i) as Hrange.
  destruct (Py.getitem l i) as [x|e0] eqn:Hget; simpl in *.
  - split; [|done]. split; [intros _; exists l; split; [done|by apply Hrange]|done].
  - apply getitem_raises in Hget as ->. simpl. split.
    + split; [done|]. intros (l' & [= <-] & Hl). by apply Hrange in Hl.
    + intros e [= <-]. by right.
Qed.

(** ** [first_entry] and [last_entry] *)
Lemma first_entry_ok (tr : list Crumb) (x : Value) (l : list Value) :
  Zipper.first_entry (mkInstance (VArr (x :: l)) tr) =
    Ok (mkInstance x (tr ++ [EntryCrumb [] l])).
Proof.
  unfold Zipper.first_entry. cbn [value trace].
  by rewrite getitem_head, slice_from_one.
Qed.

Lemma last_entry_ok (tr : list Crumb) (l : list Value) (y : Value) :
  Zipper.last_entry (mkInstance (VArr (l ++ [y])) tr) =
    Ok (mkInstance y (tr ++ [EntryCrumb l []])).
Proof.
  unfold Zipper.last_entry. cbn [value trace].
  by rewrite getitem_last, slice_to_last.
Qed.

(** X5: On a non-empty array [first_entry] and [last_entry] focus on the first
    and the last entry, [up] leads back from both, and [first_entry] is
    [entry(0)]. *)
Theorem first_last_entry (self : Instance) (l : list Value) :
  value self = VArr l ->
  l <> [] ->
  exists f la,
    Zipper.first_entry self = Ok f /\
    Zipper.last_entry self = Ok la /\
    head l = Some (value f) /\
    last l = Some (value la) /\
    Zipper.up f = Ok self /\
    Zipper.up la = Ok self /\
    Zipper.entry self 0 = Ok f.
Proof.
  destruct self as [v tr]. simpl. intros -> Hne.
  destruct (snoc_or_nil l) as [?|(l0 & y & Hl)]; [done|].
  pose proof (last_entry_ok tr l0 y) as Hlast. rewrite <- Hl in Hlast.
  destruct l as [|x l]; [done|].
  rewrite first_entry_ok, Hlast.
  eexists _, _. split; [done|]. split; [done|]. split; [done|].
  split; [by rewrite Hl, last_snoc|].
  rewrite !up_entry_crumb. split; [done|]. split; [by rewrite Hl|].
  by rewrite (entry_ok _ (x :: l) 0 x).
Qed.

(** On the empty array both fail with [NonexistentInstance]. *)
Lemma first_last_entry_empty (tr : list Crumb) :
  let self := mkInstance (VArr []) tr in
  Zipper.first_entry self = Raise (NonexistentInstance self "first of empty") /\
  Zipper.last_entry self = Raise (NonexistentInstance self "last of empty").
Proof. done. Qed.

Lemma first_last_entry_witness :
  let self := mkInstance (VArr [VInt 10; VInt 20; VInt 30]) [] in
  exists f la,
    Zipper.first_entry self = Ok f /\
    Zipper.last_entry self = Ok la /\
    head [VInt 10; VInt 20; VInt 30] = Some (value f) /\
    last [VInt 10; VInt 20; VInt 30] = Some (value la) /\
    Zipper.up f = Ok self /\
    Zipper.up la = Ok self /\
    Zipper.entry self 0 = Ok f.
Proof.
  apply (first_last_entry (mkInstance (VArr [VInt 10; VInt 20; VInt 30]) [])
           [VInt 10; VInt 20; VInt 30]); [reflexivity|discriminate].
Defined.

(** ** [top] *)

Lemma up_shortens (self j : Instance) :
  Zipper.up self = Ok j -> exists c, trace self = trace j ++ [c].
Proof.
  destruct self as [v tr0].
  destruct (snoc_or_nil tr0) as [->|(tr & c & ->)].
  - by rewrite (up_root v).
  - unfold Zipper.up. rewrite crumb_last. cbn.
    destruct (Zipper.zip c v) as [v'|e]; cbn; [|by destruct e].
    rewrite slice_to_last. intros [= <-]. by exists c.
Qed.

Lemma top_loop_enough (fuel : nat) (self : Instance) :
  (length (trace self) <= fuel)%nat ->
  exists r, Route.top_loop fuel self = Some r /\
            Route.top_loop (length (trace self)) self = Some r.
Proof.
  revert self. induction fuel as [|fuel IH]; intros self Hlen.
  - destruct (trace self) eqn:Htr; simpl in Hlen; [|lia].
    exists (Ok self). simpl. by rewrite Htr.
  - destruct (trace self) as [|c0 tr0] eqn:Htr.
    { exists (Ok self). simpl. by rewrite Htr. }
    cbn [length Route.top_loop]. rewrite Htr.
    destruct (Zipper.up self) as [j|e] eqn:Hup; [|by eexists].
    destruct (up_shortens self j Hup) as [c Hc].
    assert (length tr0 = length (trace j)) as Hj.
    { rewrite Htr in Hc. apply (f_equal length) in Hc.
      rewrite length_app in Hc. simpl in Hc. lia. }
    destruct (IH j) as (r & Hr1 & Hr2); [simpl in Hlen; lia|].
    exists r. split; [done|]. by rewrite Hj.
Qed.

(** X1: [top] always terminates: as many iterations as there are crumbs are
    enough, and more change nothing. *)
Theorem top_terminates (self : Instance) :
  exists r, Route.top self = Some r /\
            forall fuel, (length (trace self) <= fuel)%nat ->
                         Route.top_loop fuel self = Some r.
Proof.
  destruct (top_loop_enough (length (trace self)) self) as (r & Hr & _);
    [done|].
  exists r. split; [done|]. intros fuel Hfuel.
  destruct (top_loop_enough fuel self Hfuel) as (r' & Hr1 & Hr2).
  unfold Route.top in Hr. congruence.
Qed.

Lemma top_loop_step (fuel : nat) (self : Instance) :
  trace self <> [] ->
  Route.top_loop (S fuel) self =
    match Zipper.up self with
    | Ok j => Route.top_loop fuel j
    | Raise e => Some (Raise e)
    end.
Proof. intros Hne. simpl. by destruct (trace self). Qed.

Lemma up_typed (v : Value) (tr : list Crumb) (c : Crumb) :
  crumb_typed c ->
  exists v', Zipper.up (mkInstance v (tr ++ [c])) = Ok (mkInstance v' tr).
Proof.
  destruct c as [name [| | | | | |d]|before after]; try done; intros _.
  - rewrite up_member_crumb. by eexists.
  - rewrite up_entry_crumb. by eexists.
Qed.

(** X2: On a well-typed trace [top] succeeds and ends at an instance without
    crumbs; on an instance without crumbs it is the identity. *)
Theorem top_reaches_root (self : Instance) :
  Forall crumb_typed (trace self) ->
  exists r, Route.top self = Some (Ok r) /\ trace r = [] /\
            (trace self = [] -> r = self).
Proof.
  unfold Route.top. destruct self as [v tr]. simpl.
  revert v. induction tr as [|c tr IH] using rev_ind; intros v Htyped.
  - by exists (mkInstance v []).
  - apply Forall_app in Htyped as [Htr Hc]. apply Forall_inv in Hc.
    destruct (up_typed v tr c Hc) as [v' Hup].
    destruct (IH v' Htr) as (r & Hr & Hroot & _).
    exists r. rewrite length_app, Nat.add_1_r.
    rewrite top_loop_step by (by destruct tr). rewrite Hup.
    split; [done|]. split; [done|]. by destruct tr.
Qed.

Lemma top_reaches_root_witness :
  exists r,
    Route.top (mkInstance (VInt 20)
                 [MemberCrumb "a" (VObj []); EntryCrumb [VInt 10] [VInt 30]])
      = Some (Ok r) /\
    trace r = [] /\
    (trace (mkInstance (VInt 20)
              [MemberCrumb "a" (VObj []); EntryCrumb [VInt 10] [VInt 30]]) = [] ->
     r = mkInstance (VInt 20)
           [MemberCrumb "a" (VObj []); EntryCrumb [VInt 10] [VInt 30]]).
Proof.
  apply (top_reaches_root
           (mkInstance (VInt 20)
              [MemberCrumb "a" (VObj []); EntryCrumb [VInt 10] [VInt 30]])).
  repeat constructor.
Defined.

(** ** How [member] fails *)

(** X3: [member] succeeds exactly on an object that has the name; on a list it
    raises [InstanceTypeError], on an object without the name
    [NonexistentInstance], and on any other focus (null, a boolean, a number,
    a string) the built-in [AttributeError] of [self.value.copy()]
    escapes. *)
Theorem member_outcomes (self : Instance) (name : string) :
  match value self with
  | VObj d =>
      match PyDict.get name d with
      | Some x =>
          Zipper.member self name =
            Ok (mkInstance x
                  (trace self ++
                   [MemberCrumb name (VObj (PyDict.remove name d))]))
      | None =>
          Zipper.member self name =
            Raise (NonexistentInstance self ("member " +:+ name))
      end
  | VArr _ =>
      Zipper.member self name =
        Raise (InstanceTypeError self "member of non-object")
  | _ => Zipper.member self name = Raise AttributeError
  end.
Proof.
  unfold Zipper.member. destruct (value self) as [| | | | |l|d]; try done.
  simpl. unfold PyDict.pop. by destruct (PyDict.get name d).
Qed.

(** ** [goto], [peek] and [look_up] *)

Lemma member_inv (self j : Instance) (name : string) :
  Zipper.member self name = Ok j ->
  exists d x, value self = VObj d /\ PyDict.get name d = Some x /\
              value j = x.
Proof.
  unfold Zipper.member.
  destruct (value self) as [| | | | |l|d]; try done. simpl.
  unfold PyDict.pop. destruct (PyDict.get name d) as [x|] eqn:Hx; [|done].
  simpl. intros [= <-]. by eexists _, _.
Qed.

Lemma entry_inv (self j : Instance) (i : Z) :
  Zipper.entry self i = Ok j ->
  exists l, value self = VArr l /\ Py.getitem l i = Ok (value j).
Proof.
  unfold Zipper.entry. destruct (value self) as [| | | | |l|d]; try done.
  destruct (Py.getitem l i) as [x|e] eqn:Hget; [|by destruct e].
  simpl. intros [= <-]. by eexists.
Qed.

Section look_up.
Variables (self : Instance) (l : list Value) (keys : list (string * Value)).

(** [look_up] and [EntryKeys.peek_step] scan the entries alike. *)
Lemma look_up_loop_entries (Hself : value self = VArr l)
    (pre suf : list Value) (j : Instance) :
  l = pre ++ suf ->
  Route.look_up_loop self l keys (seq (length pre) (length suf)) = Ok j ->
  Selector.entries_loop keys suf = Ok (value j).
Proof.
  revert pre. induction suf as [|en suf IH]; intros pre Hl; [done|].
  cbn [length seq Route.look_up_loop Selector.entries_loop].
  rewrite (getitem_nonneg l _ en) by
    (rewrite ?Nat2Z.id, ?Hl; (by apply list_lookup_middle) || lia).
  cbn [mbind result_bind].
  destruct (Selector.keys_loop en keys (PyDict.keys keys)) as [[]|e]; cbn;
    [| |done].
  - intros Hentry. f_equal.
    rewrite (entry_ok self l _ en Hself) in Hentry
      by (rewrite ?Nat2Z.id, ?Hl; (by apply list_lookup_middle) || lia).
    by injection Hentry as <-.
  - intros Hloop. apply (IH (pre ++ [en])).
    + by rewrite <- app_assoc.
    + by rewrite length_app, Nat.add_1_r.
Qed.

(** What the loop of [look_up] can raise. *)
Lemma look_up_loop_raises (Hself : value self = VArr l)
    (pre suf : list Value) (e : exn) :
  l = pre ++ suf ->
  Route.look_up_loop self l keys (seq (length pre) (length suf)) = Raise e ->
  e = KeyError \/ e = TypeError \/
  e = NonexistentInstance self "entry lookup failed".
Proof.
  revert pre. induction suf as [|en suf IH]; intros pre Hl.
  - simpl. intros [= <-]. auto.
  - cbn [length seq Route.look_up_loop].
    rewrite (getitem_nonneg l _ en) by
      (rewrite ?Nat2Z.id, ?Hl; (by apply list_lookup_middle) || lia).
    cbn [mbind result_bind].
    destruct (Selector.keys_loop en keys (PyDict.keys keys)) as [[]|e0]
      eqn:Hkeys; cbn.
    + rewrite (entry_ok self l _ en Hself)
        by (rewrite ?Nat2Z.id, ?Hl; (by apply list_lookup_middle) || lia).
      done.
    + intros Hloop. apply (IH (pre ++ [en])); [by rewrite <- app_assoc|].
      by rewrite length_app, Nat.add_1_r.
    + intros [= <-]. clear IH.
      revert Hkeys. generalize (PyDict.keys keys). intros ks.
      induction ks as [|k ks IHks]; simpl; [done|].
      destruct en as [| | | | | |d]; simpl; try (intros [= <-]; auto).
      destruct (PyDict.get k d); simpl; [|intros [= <-]; auto].
      destruct (PyDict.get k keys); [|intros [= <-]; auto].
      destruct (Py.ne _ _); [done|]. apply IHks.
Qed.

End look_up.

(** X15: [look_up] fails only with [InstanceTypeError] or [NonexistentInstance],
    both carrying the receiver: the [KeyError] of an entry without one of the
    keys and the [TypeError] of an entry that is no object are both
    translated. *)
Theorem look_up_failures (self : Instance) (keys : list (string * Value)) :
  match Route.look_up self keys with
  | Ok _ => True
  | Raise e =>
      e = NonexistentInstance self "entry lookup failed" \/
      e = InstanceTypeError self "lookup on non-list"
  end.
Proof.
  unfold Route.look_up.
  destruct (value self) as [| | | | |l|d] eqn:Hv; auto.
  destruct (Route.look_up_loop self l keys (seq 0 (length l))) as [j|e0]
    eqn:Hloop; [done|].
  destruct (look_up_loop_raises self l keys Hv [] l e0 eq_refl Hloop)
    as [-> | [-> | ->]]; simpl; auto.
Qed.

Section matching.
Variables (keys : list (string * Value)).

Lemma keys_loop_true (en : Value) (ks : list string) :
  Selector.keys_loop en keys ks = Ok true ->
  forall k, k ∈ ks ->
    exists x y, Py.getitem_str en k = Ok x /\ PyDict.get k keys = Some y /\
                Py.eq x y = true.
Proof.
  induction ks as [|k0 ks IH]; simpl; [by intros _ k ?%elem_of_nil|].
  destruct (Py.getitem_str en k0) as [x|] eqn:Hx; [|done]. cbn.
  destruct (PyDict.get k0 keys) as [y|] eqn:Hy; [|done].
  unfold Py.ne. destruct (Py.eq x y) eqn:Hxy; [|done]. simpl.
  intros Hloop k [->|Hk]%elem_of_cons; [by eexists _, _|by apply IH].
Qed.

Lemma keys_loop_false (en : Value) (ks : list string) :
  Selector.keys_loop en keys ks = Ok false ->
  exists k x y, Py.getitem_str en k = Ok x /\ PyDict.get k keys = Some y /\
                Py.eq x y = false.
Proof.
  induction ks as [|k0 ks IH]; simpl; [done|].
  destruct (Py.getitem_str en k0) as [x|] eqn:Hx; [|done]. cbn.
  destruct (PyDict.get k0 keys) as [y|] eqn:Hy; [|done].
  unfold Py.ne. destruct (Py.eq x y) eqn:Hxy; simpl.
  - apply IH.
  - intros _. by eexists _, _, _.
Qed.

Lemma get_Some_keys {V} (k : string) (v : V) (d : list (string * V)) :
  PyDict.get k d = Some v -> k ∈ PyDict.keys d.
Proof.
  unfold PyDict.keys. induction d as [|[k0 v0] d IH]; simpl; [done|].
  destruct (decide (k = k0)) as [->|]; [by left|]. right. by apply IH.
Qed.

Lemma keys_loop_matches (en : Value) :
  (Selector.keys_loop en keys (PyDict.keys keys) = Ok true ->
   matches en keys) /\
  (Selector.keys_loop en keys (PyDict.keys keys) = Ok false ->
   ~ matches en keys).
Proof.
  split.
  - intros Hloop k y Hy.
    destruct (keys_loop_true en _ Hloop k (get_Some_keys _ _ _ Hy))
      as (x & y' & Hx & Hy' & Hxy).
    exists x. split; [done|]. congruence.
  - intros (k & x & y & Hx & Hy & Hxy)%keys_loop_false Hm.
    destruct (Hm k y Hy) as (x' & Hx' & Hxy'). congruence.
Qed.

Lemma look_up_loop_first (self : Instance) (l pre suf : list Value)
    (j : Instance) :
  value self = VArr l ->
  l = pre ++ suf ->
  Route.look_up_loop self l keys (seq (length pre) (length suf)) = Ok j ->
  exists i,
    Zipper.entry self (Z.of_nat (length pre + i)) = Ok j /\
    suf !! i = Some (value j) /\
    matches (value j) keys /\
    forall i' en, (i' < i)%nat -> suf !! i' = Some en -> ~ matches en keys.
Proof.
  intros Hself. revert pre. induction suf as [|en suf IH]; intros pre Hl;
    [done|].
  cbn [length seq Route.look_up_loop].
  rewrite (getitem_nonneg l _ en) by
    (rewrite ?Nat2Z.id, ?Hl; (by apply list_lookup_middle) || lia).
  cbn [mbind result_bind].
  destruct (Selector.keys_loop en keys (PyDict.keys keys)) as [[]|e]
    eqn:Hkeys; cbn; [| |done].
  - intros Hentry. exists 0%nat. rewrite Nat.add_0_r. split; [done|].
    rewrite (entry_ok self l _ en Hself) in Hentry
      by (rewrite ?Nat2Z.id, ?Hl; (by apply list_lookup_middle) || lia).
    injection Hentry as <-. simpl. split; [done|].
    split; [by apply keys_loop_matches|]. intros; lia.
  - intros Hloop. destruct (IH (pre ++ [en])) as (i & Hi & Hsuf & Hm & Hfirst).
    + by rewrite <- app_assoc.
    + by rewrite length_app, Nat.add_1_r.
    + exists (S i). rewrite length_app, Nat.add_1_r in Hi.
      replace (length pre + S i)%nat with (S (length pre) + i)%nat by lia.
      split; [done|]. split; [done|]. split; [done|].
      intros [|i'] en' Hlt; simpl.
      * intros [= <-]. by apply keys_loop_matches.
      * apply Hfirst. lia.
Qed.

End matching.

(** X16: When [look_up] succeeds, it has moved to the first entry, in array order,
    that has every key of [keys] with an equal value. *)
Theorem look_up_first_match (self j : Instance)
    (keys : list (string * Value)) :
  Route.look_up self keys = Ok j ->
  exists l i,
    value self = VArr l /\
    Zipper.entry self (Z.of_nat i) = Ok j /\
    l !! i = Some (value j) /\
    matches (value j) keys /\
    forall i' en, (i' < i)%nat -> l !! i' = Some en -> ~ matches en keys.
Proof.
  unfold Route.look_up.
  destruct (value self) as [| | | | |l|d] eqn:Hv; try done.
  destruct (Route.look_up_loop self l keys (seq 0 (length l))) as [j'|e]
    eqn:Hloop; [|by destruct e].
  simpl. intros [= ->].
  destruct (look_up_loop_first keys self l [] l j Hv eq_refl Hloop)
    as (i & Hi & ?). exists l, i. by split.
Qed.

Lemma look_up_first_match_witness :
  let self :=
    mkInstance (VArr [VObj [("id", VInt 1)]; VObj [("id", VInt 3)];
                      VObj [("id", VInt 3); ("x", VNone)]]) [] in
  exists l i,
    value self = VArr l /\
    Zipper.entry self (Z.of_nat i) =
      Ok (mkInstance (VObj [("id", VInt 3)])
            [EntryCrumb [VObj [("id", VInt 1)]]
                        [VObj [("id", VInt 3); ("x", VNone)]]]) /\
    l !! i = Some (VObj [("id", VInt 3)]) /\
    matches (VObj [("id", VInt 3)]) [("id", VInt 3)] /\
    forall i' en, (i' < i)%nat -> l !! i' = Some en ->
                  ~ matches en [("id", VInt 3)].
Proof.
  apply (look_up_first_match
           (mkInstance (VArr [VObj [("id", VInt 1)]; VObj [("id", VInt 3)];
                              VObj [("id", VInt 3); ("x", VNone)]]) [])
           (mkInstance (VObj [("id", VInt 3)])
              [EntryCrumb [VObj [("id", VInt 1)]]
                          [VObj [("id", VInt 3); ("x", VNone)]]])
           [("id", VInt 3)]).
  reflexivity.
Defined.

Section goto.
Variable py_str : Value -> string.

(** A navigation step that succeeds reaches the value the probe step
    returns. *)
Lemma goto_step_peek_step (sel : InstanceSelector) (inst j : Instance) :
  Route.goto_step py_str sel inst = Ok j ->
  Selector.peek_step sel (value inst) = Ok (value j).
Proof.
  destruct sel as [name|index|x|keys]; simpl.
  - intros (d & y & -> & Hy & <-)%member_inv. by rewrite Hy.
  - intros (l & -> & Hget)%entry_inv. simpl. by rewrite Hget.
  - destruct (Py.index (value inst) x) as [i|e] eqn:Hi; cbn;
      [|by destruct e].
    destruct (Zipper.entry inst i) as [j'|e] eqn:He; cbn; [|by destruct e].
    intros [= ->]. apply entry_inv in He as (l & Hl & Hget).
    rewrite Hl. simpl. by rewrite Hget.
  - unfold Route.look_up.
    destruct (value inst) as [| | | | |l|d] eqn:Hv; try done.
    destruct (Route.look_up_loop inst l keys (seq 0 (length l))) as [j'|e]
      eqn:Hloop; [|by destruct e].
    simpl. intros [= ->].
    by apply (look_up_loop_entries inst l keys Hv [] l j).
Qed.

(** X17: When [goto] succeeds along a path, [peek] along the same path returns the
    value of the instance reached. *)
Theorem goto_peek (self j : Instance) (ii : list InstanceSelector) :
  Route.goto py_str self ii = Ok j ->
  Selector.peek self ii = Ok (value j).
Proof.
  unfold Selector.peek. revert self.
  induction ii as [|sel ii IH]; intros self; simpl.
  - by intros [= <-].
  - destruct (Route.goto_step py_str sel self) as [inst|e] eqn:Hstep;
      [|done].
    cbn. rewrite (goto_step_peek_step sel self inst Hstep). cbn. apply IH.
Qed.

(** X18: [goto] along a concatenated path is [goto] along the first part, then
    along the second from where the first arrives; a failure in the first
    part is the failure of the whole. *)
Theorem goto_app (self : Instance) (ii jj : list InstanceSelector) :
  Route.goto py_str self (ii ++ jj) =
    (j ← Route.goto py_str self ii; Route.goto py_str j jj).
Proof.
  revert self. induction ii as [|sel ii IH]; intros self; [done|].
  simpl. destruct (Route.goto_step py_str sel self); [|done]. cbn. apply IH.
Qed.

End goto.

Lemma goto_peek_witness :
  Selector.peek (mkInstance (VObj [("a", VArr [VInt 10; VInt 20])]) [])
    [MemberName "a"; EntryValue (VInt 20)] =
    Ok (value (mkInstance (VInt 20)
                 [MemberCrumb "a" (VObj []); EntryCrumb [VInt 10] []])).
Proof.
  apply (goto_peek (fun _ => EmptyString)
           (mkInstance (VObj [("a", VArr [VInt 10; VInt 20])]) [])).
  reflexivity.
Defined.

(** ** String forms *)
Section strings.
Variables (py_str py_repr : Value -> string).

Lemma concat_slash (names : list string) :
  names <> [] ->
  ("/" +:+ String.concat "/" names)%string =
    String.concat "" ((fun n => "/" +:+ n) <$> names).
Proof.
  induction names as [|a [|b names] IH]; [done|done|]. intros _.
  specialize (IH ltac:(done)).
  change (String.concat "/" (a :: b :: names))
    with (a +:+ "/" +:+ String.concat "/" (b :: names)).
  change (String.concat "" ((fun n => "/" +:+ n) <$> a :: b :: names))
    with (("/" +:+ a) +:+ "" +:+
          String.concat "" ((fun n => "/" +:+ n) <$> b :: names)).
  rewrite <- IH. simpl. done.
Qed.

Lemma goto_member_names (self j : Instance) (names : list string) :
  Route.goto py_str self (MemberName <$> names) = Ok j ->
  exists ms, trace j = trace self ++ ((fun m => MemberCrumb m.1 m.2) <$> ms) /\
             ms.*1 = names.
Proof.
  revert self. induction names as [|n names IH]; intros self; simpl.
  - intros [= <-]. exists []. by rewrite app_nil_r.
  - pose proof (member_outcomes self n) as Hm.
    destruct (Zipper.member self n) as [inst|e] eqn:Hmem; [|done]. cbn.
    intros (ms & Hms & Hnames)%IH.
    destruct (value self) as [| | | | |l|d]; try done.
    destruct (PyDict.get n d) as [x|]; [|done]. injection Hm as ->.
    exists ((n, VObj (PyDict.remove n d)) :: ms).
    simpl in *. rewrite Hms, <- app_assoc. split; [done|]. by f_equal.
Qed.

(** X19: From an instance without crumbs, the pointer of the instance reached
    along a non-empty path of member names is the string form of the path. *)
Theorem pointer_of_member_path (root j : Instance) (names : list string) :
  trace root = [] ->
  names <> [] ->
  Route.goto py_str root (MemberName <$> names) = Ok j ->
  Zipper.pointer j =
    Ok (Route.identifier_str py_str py_repr (MemberName <$> names)).
Proof.
  intros Hroot Hne (ms & Hms & <-)%goto_member_names.
  rewrite Hroot in Hms. simpl in Hms. destruct j as [v tr]. simpl in Hms.
  subst tr. rewrite pointer_members. f_equal.
  rewrite concat_slash by (by destruct ms).
  unfold Route.identifier_str. by rewrite <- !list_fmap_compose.
Qed.

End strings.

Lemma pointer_of_member_path_witness :
  Zipper.pointer (mkInstance (VInt 1)
                    [MemberCrumb "a" (VObj []); MemberCrumb "b" (VObj [])]) =
    Ok (Route.identifier_str (fun _ => EmptyString) (fun _ => EmptyString)
          (MemberName <$> ["a"; "b"]%string)).
Proof.
  apply (pointer_of_member_path (fun _ => EmptyString) (fun _ => EmptyString)
           (mkInstance (VObj [("a", VObj [("b", VInt 1)])]) [])
           (mkInstance (VInt 1)
              [MemberCrumb "a" (VObj []); MemberCrumb "b" (VObj [])])
           ["a"; "b"]%string); [reflexivity|discriminate|reflexivity].
Defined.

(** ** Messages of the exceptions *)

Lemma string_app_assoc (s t u : string) :
  ((s +:+ t) +:+ u = s +:+ (t +:+ u))%string.
Proof.
  induction s as [|a s IH]; [done|].
  change (String a ((s +:+ t) +:+ u) = String a (s +:+ t +:+ u)).
  by rewrite IH.
Qed.

(** X20: The message of an error about an instance below an array entry cannot be
    built: [InstanceError.__str__] calls [pointer()], which raises
    [TypeError] there.  In particular the errors [next] and [previous] raise
    at the ends of an array have no printable message.  With member crumbs
    only, the message is the pointer in brackets, two blanks and the text. *)
Theorem error_message (v : Value) (tr tr' : list Crumb)
    (before after : list Value) (ms : list (string * Value)) (text : string) :
  let inner := mkInstance v (tr ++ EntryCrumb before after :: tr') in
  let outer := mkInstance v ((fun m => MemberCrumb m.1 m.2) <$> ms) in
  Route.error_str (NonexistentInstance inner text) = Some (Raise TypeError) /\
  Route.error_str (InstanceTypeError inner text) = Some (Raise TypeError) /\
  (exists e, Zipper.next (mkInstance v (tr ++ [EntryCrumb before []]))
               = Raise e /\ Route.error_str e = Some (Raise TypeError)) /\
  Route.error_str (NonexistentInstance outer text) =
    Some (Ok ("[/" +:+ String.concat "/" (ms.*1) +:+ "]  " +:+ text)).
Proof.
  simpl. unfold Route.error_str, Route.instance_error_str.
  rewrite pointer_entry_crumb, pointer_members. simpl.
  split; [done|]. split; [done|]. split.
  - rewrite (next_of_last v tr before). eexists. split; [done|]. simpl.
    by rewrite (pointer_entry_crumb v tr []).
  - do 2 f_equal. by rewrite !string_app_assoc.
Qed.

(** * Further properties of node-sets *)
Section union_algebra.
Context {P : Type} `{EqDecision P}.
Implicit Types (n : Nodeset.Node P) (l s t u : list (Nodeset.Node P)) (p : P).
Implicit Types (a b : list P).

(** ** More on first occurrences *)

Lemma filter_all {A} (Q : A -> Prop) `{!forall x, Decision (Q x)}
    (l : list A) :
  Forall Q l -> filter Q l = l.
Proof.
  induction 1 as [|x l Hx _ IH]; [done|].
  by rewrite filter_cons_True, IH.
Qed.

Lemma filter_none {A} (Q : A -> Prop) `{!forall x, Decision (Q x)}
    (l : list A) :
  Forall (fun x => ~ Q x) l -> filter Q l = [].
Proof.
  induction 1 as [|x l Hx _ IH]; [done|].
  by rewrite filter_cons_False, IH.
Qed.

Lemma omap_ext_all {A B} (f g : A -> option B) (l : list A) :
  (forall x, f x = g x) -> omap f l = omap g l.
Proof.
  intros Hfg. induction l as [|x l IH]; [done|].
  cbn [omap list_omap]. by rewrite Hfg, IH.
Qed.

Lemma length_first_occurrences_le a :
  (length (first_occurrences a) <= length a)%nat.
Proof.
  induction a as [|p a IH]; simpl; [done|].
  pose proof (length_filter (fun q => q <> p) (first_occurrences a)). lia.
Qed.

Lemma first_occurrences_NoDup a : NoDup a -> first_occurrences a = a.
Proof.
  induction 1 as [|p a Hp _ IH]; simpl; [done|]. rewrite IH. f_equal.
  apply filter_all, Forall_forall. by intros q Hq ->.
Qed.

Lemma first_occurrences_app a b :
  first_occurrences (a ++ b) =
    first_occurrences a ++ filter (fun q => q ∉ a) (first_occurrences b).
Proof.
  induction a as [|p a IH]; simpl.
  - symmetry. apply filter_all, Forall_forall.
    intros q _. apply not_elem_of_nil.
  - rewrite IH, filter_app. do 2 f_equal.
    rewrite list_filter_filter. apply list_filter_iff.
    intros q. rewrite not_elem_of_cons. tauto.
Qed.

Lemma first_occurrences_app_l a b :
  first_occurrences (first_occurrences a ++ b) = first_occurrences (a ++ b).
Proof.
  rewrite !first_occurrences_app.
  rewrite (first_occurrences_NoDup (first_occurrences a))
    by apply NoDup_first_occurrences.
  f_equal. apply list_filter_iff. intros q.
  by rewrite elem_of_first_occurrences.
Qed.

Lemma first_occurrences_app_r a b :
  first_occurrences (a ++ first_occurrences b) = first_occurrences (a ++ b).
Proof.
  rewrite !first_occurrences_app.
  by rewrite (first_occurrences_NoDup (first_occurrences b))
    by apply NoDup_first_occurrences.
Qed.

(** ** A node-set built by [union] or [bind] is determined by the paths in
    first-occurrence order and the last node of each path *)

Lemma nodes_determined l (us : list (Nodeset.Node P)) (ps : list P) :
  Forall2 (fun n p => last_with_path p l = Some n) us ps ->
  us = omap (fun p => last_with_path p l) ps.
Proof.
  induction 1 as [|n p us ps Hn _ IH]; [done|].
  cbn [omap list_omap]. rewrite Hn. by f_equal.
Qed.

Lemma union_nil_r_nodes l :
  Nodeset.union l [] =
    omap (fun p => last_with_path p l) (first_occurrences (Nodeset.path <$> l)).
Proof.
  pose proof (union_nodes l []) as Hall. rewrite app_nil_r in Hall.
  by apply nodes_determined.
Qed.

Lemma union_as_dedup s t : Nodeset.union s t = Nodeset.union (s ++ t) [].
Proof. unfold Nodeset.union. by rewrite app_nil_r. Qed.

Lemma last_with_path_app p s t :
  last_with_path p (s ++ t) =
    match last_with_path p t with
    | Some n => Some n
    | None => last_with_path p s
    end.
Proof. unfold last_with_path. by rewrite filter_app, last_app. Qed.

(** Deduplication keeps, for each path, the node that was the last one. *)
Lemma last_with_path_dedup p l :
  last_with_path p (Nodeset.union l []) = last_with_path p l.
Proof.
  destruct (last_with_path p l) as [n|] eqn:Hl.
  - assert (p ∈ Nodeset.path <$> Nodeset.union l []) as Hin.
    { rewrite (nodes_paths _ _ _ (union_nodes l [])), app_nil_r.
      apply elem_of_first_occurrences, last_with_path_is_Some. eauto. }
    apply last_with_path_is_Some in Hin as [m Hm]. rewrite Hm. f_equal.
    destruct (last_with_path_path _ _ _ Hm) as [Hpm Hmin].
    pose proof (nodes_elem _ _ _ m (union_nodes l []) Hmin) as Hlast.
    rewrite app_nil_r, Hpm in Hlast. congruence.
  - destruct (last_with_path p (Nodeset.union l [])) as [m|] eqn:Hm; [|done].
    destruct (last_with_path_path _ _ _ Hm) as [Hpm Hmin].
    pose proof (nodes_elem _ _ _ m (union_nodes l []) Hmin) as Hlast.
    rewrite app_nil_r, Hpm in Hlast. congruence.
Qed.


(** ** [union] is associative *)

(** X21: [union] is associative: [(s.union(t)).union(u)] and
    [s.union(t.union(u))] are the same list of nodes. *)
Theorem union_assoc s t u :
  Nodeset.union (Nodeset.union s t) u = Nodeset.union s (Nodeset.union t u).
Proof.
  rewrite (union_as_dedup (Nodeset.union s t) u).
  rewrite (union_as_dedup s (Nodeset.union t u)).
  rewrite !union_nil_r_nodes, !fmap_app.
  rewrite !(union_as_dedup s t), !(union_as_dedup t u).
  rewrite !(nodes_paths _ _ _ (union_nodes _ [])), !app_nil_r.
  rewrite first_occurrences_app_l, first_occurrences_app_r.
  rewrite <- !fmap_app, <- app_assoc.
  apply omap_ext_all. intros p.
  rewrite !last_with_path_app, !last_with_path_dedup, !last_with_path_app.
  by destruct (last_with_path p u), (last_with_path p t).
Qed.


(** ** [union] on sets without repeated paths *)

Lemma omap_last_with_path l (k : list (Nodeset.Node P)) :
  (forall n, n ∈ k -> last_with_path (Nodeset.path n) l = Some n) ->
  omap (fun p => last_with_path p l) (Nodeset.path <$> k) = k.
Proof.
  induction k as [|n k IH]; intros Hlast; [done|].
  cbn [fmap list_fmap omap list_omap].
  rewrite (Hlast n) by by left. f_equal. apply IH.
  intros m Hm. apply Hlast. by right.
Qed.

Lemma omap_last_with_path_NoDup l :
  NoDup (Nodeset.path <$> l) ->
  omap (fun p => last_with_path p l) (Nodeset.path <$> l) = l.
Proof.
  intros Hnd.
  assert (forall n, n ∈ l -> last_with_path (Nodeset.path n) l = Some n)
    as Hlast.
  { induction l as [|m l IH] using rev_ind; [by intros n ?%elem_of_nil|].
    rewrite fmap_app in Hnd. apply NoDup_app in Hnd as (Hl & Hdis & _).
    intros n Hn. rewrite last_with_path_snoc.
    destruct (decide (Nodeset.path m = Nodeset.path n)) as [Heq|Hne].
    - apply elem_of_app in Hn as [Hn|Hn%list_elem_of_singleton]; [|by subst].
      exfalso. apply (Hdis (Nodeset.path n)).
      + by apply list_elem_of_fmap_2.
      + rewrite <- Heq. by left.
    - apply elem_of_app in Hn as [Hn|Hn%list_elem_of_singleton];
        [by apply IH|by subst]. }
  by apply omap_last_with_path.
Qed.

Lemma union_self s : Nodeset.union s s = Nodeset.union s [].
Proof.
  rewrite (union_as_dedup s s), !union_nil_r_nodes, fmap_app.
  rewrite first_occurrences_app, filter_none, app_nil_r.
  - apply omap_ext_all. intros p.
    rewrite last_with_path_app. by destruct (last_with_path p s).
  - apply Forall_forall. intros q Hq Hnot. apply Hnot.
    exact (proj1 (elem_of_first_occurrences q _) Hq).
Qed.

Lemma union_nil_NoDup s :
  NoDup (Nodeset.path <$> s) -> Nodeset.union s [] = s.
Proof.
  intros Hnd. rewrite union_nil_r_nodes, first_occurrences_NoDup by done.
  by apply omap_last_with_path_NoDup.
Qed.

(** X22: On a node-set without repeated paths, the empty node-set is neutral for
    [union] on both sides and [union] is idempotent. *)
Theorem union_neutral_idempotent s :
  NoDup (Nodeset.path <$> s) ->
  Nodeset.union s [] = s /\ Nodeset.union [] s = s /\ Nodeset.union s s = s.
Proof.
  intros Hnd. pose proof (union_nil_NoDup s Hnd) as Hs.
  split; [done|]. split; [by rewrite (union_as_dedup [] s)|].
  by rewrite union_self.
Qed.

(** ** [bind] *)

Lemma dedup_app s t :
  Nodeset.union (Nodeset.union s [] ++ Nodeset.union t []) [] =
    Nodeset.union (s ++ t) [].
Proof.
  rewrite (union_nil_r_nodes (_ ++ _)), (union_nil_r_nodes (s ++ t)).
  rewrite !fmap_app.
  rewrite !(nodes_paths _ _ _ (union_nodes _ [])), !app_nil_r.
  rewrite first_occurrences_app_l, first_occurrences_app_r.
  apply omap_ext_all. intros p.
  by rewrite !last_with_path_app, !last_with_path_dedup.
Qed.

Lemma bind_as_union s (trans : Nodeset.Node P -> list (Nodeset.Node P)) :
  Nodeset.bind s trans = Nodeset.union (n ← s; trans n) [].
Proof. unfold Nodeset.bind, Nodeset.union. by rewrite app_nil_r. Qed.

(** X23: [bind] applies the step to every member in turn and deduplicates what
    comes out like [union] does: one node per path, in the order in which the
    paths first come out, each the last node that came out with its path. *)
Theorem bind_dedup_order s (trans : Nodeset.Node P -> list (Nodeset.Node P)) :
  let out := n ← s; trans n in
  let b := Nodeset.bind s trans in
  Nodeset.path <$> b = first_occurrences (Nodeset.path <$> out) /\
  NoDup (Nodeset.path <$> b) /\
  (forall n, n ∈ b -> last_with_path (Nodeset.path n) out = Some n) /\
  (length b <= length out)%nat.
Proof.
  simpl. rewrite bind_as_union.
  pose proof (union_nodes (n ← s; trans n) []) as Hall.
  rewrite app_nil_r in Hall.
  pose proof (nodes_paths _ _ _ Hall) as Hpaths.
  split; [done|]. split; [rewrite Hpaths; apply NoDup_first_occurrences|].
  split; [intros n; by eapply nodes_elem|].
  rewrite <- (length_fmap Nodeset.path), Hpaths.
  rewrite <- (length_fmap Nodeset.path (n ← s; trans n)).
  apply length_first_occurrences_le.
Qed.

(** X24: On node-sets that share no path and repeat none, [bind] distributes over
    [union]. *)
Theorem bind_union s t (trans : Nodeset.Node P -> list (Nodeset.Node P)) :
  NoDup (Nodeset.path <$> (s ++ t)) ->
  Nodeset.bind (Nodeset.union s t) trans =
    Nodeset.union (Nodeset.bind s trans) (Nodeset.bind t trans).
Proof.
  intros Hnd.
  rewrite (union_as_dedup s t).
  rewrite (union_nil_NoDup (s ++ t) Hnd).
  rewrite !bind_as_union, bind_app.
  rewrite (union_as_dedup (Nodeset.union _ []) (Nodeset.union _ [])).
  by rewrite dedup_app.
Qed.

End union_algebra.

Lemma union_neutral_idempotent_witness :
  let s : list (Nodeset.Node nat) :=
    [Nodeset.mkNode 1%nat (VInt 1) false "1";
     Nodeset.mkNode 2%nat (VInt 2) false "2"] in
  Nodeset.union s [] = s /\ Nodeset.union [] s = s /\ Nodeset.union s s = s.
Proof.
  apply (union_neutral_idempotent
           [Nodeset.mkNode 1%nat (VInt 1) false "1";
            Nodeset.mkNode 2%nat (VInt 2) false "2"]).
  simpl. apply NoDup_ListNoDup. repeat constructor; simpl; intuition discriminate.
Defined.

Lemma bind_union_witness :
  let s : list (Nodeset.Node nat) := [Nodeset.mkNode 1%nat (VInt 1) false "1"] in
  let t : list (Nodeset.Node nat) := [Nodeset.mkNode 2%nat (VInt 2) false "2"] in
  let trans (n : Nodeset.Node nat) : list (Nodeset.Node nat) :=
    [Nodeset.mkNode 7%nat (Nodeset.value n) false (Nodeset.str n); n] in
  Nodeset.bind (Nodeset.union s t) trans =
    Nodeset.union (Nodeset.bind s trans) (Nodeset.bind t trans).
Proof.
  apply (bind_union [Nodeset.mkNode 1%nat (VInt 1) false "1"]
           [Nodeset.mkNode 2%nat (VInt 2) false "2"]).
  simpl. apply NoDup_ListNoDup. repeat constructor; simpl; intuition discriminate.
Defined.

(** ** Comparing two node-sets *)
Section nodeset_comparisons.
Context {P : Type} `{EqDecision P}.
Variable float_of_str : string -> option float.
Implicit Types (n m : Nodeset.Node P) (self ns : list (Nodeset.Node P)).

Lemma eq_body_str self (s : string) :
  exists b, Nodeset.eq_body float_of_str self (Nodeset.SStr s) = Ok b /\
    (b = true <->
     exists n, n ∈ self /\ Nodeset.is_internal n = false /\
               Nodeset.str n = s).
Proof.
  induction self as [|n self (b & Hb & IH)]; simpl.
  - exists false. split; [done|]. split; [done|].
    by intros (n & ?%elem_of_nil & _).
  - destruct (Nodeset.is_internal n) eqn:Hint.
    + exists b. split; [done|]. rewrite IH. split.
      * intros (m & Hm & ?). exists m. split; [by right|done].
      * intros (m & [->|Hm]%elem_of_cons & Hmi & Hs); [congruence|eauto].
    + destruct (String.eqb_spec (Nodeset.str n) s) as [Heq|Hne].
      * exists true. split; [done|]. split; [|done]. intros _.
        exists n. split; [by left|done].
      * exists b. split; [done|]. rewrite IH. split.
        -- intros (m & Hm & ?). exists m. split; [by right|done].
        -- intros (m & [->|Hm]%elem_of_cons & Hmi & Hs); [done|eauto].
Qed.

Lemma ne_body_str self (s : string) :
  exists b, Nodeset.ne_body float_of_str self (Nodeset.SStr s) = Ok b /\
    (b = true <->
     exists n, n ∈ self /\ Nodeset.is_internal n = false /\
               Nodeset.str n <> s).
Proof.
  induction self as [|n self (b & Hb & IH)]; simpl.
  - exists false. split; [done|]. split; [done|].
    by intros (n & ?%elem_of_nil & _).
  - destruct (Nodeset.is_internal n) eqn:Hint.
    + exists b. split; [done|]. rewrite IH. split.
      * intros (m & Hm & ?). exists m. split; [by right|done].
      * intros (m & [->|Hm]%elem_of_cons & Hmi & Hs); [congruence|eauto].
    + destruct (String.eqb_spec (Nodeset.str n) s) as [Heq|Hne]; simpl.
      * exists b. split; [done|]. rewrite IH. split.
        -- intros (m & Hm & ?). exists m. split; [by right|done].
        -- intros (m & [->|Hm]%elem_of_cons & Hmi & Hs); [done|eauto].
      * exists true. split; [done|]. split; [|done]. intros _.
        exists n. split; [by left|done].
Qed.

(** The decorator's loop over a node-set argument, for a method that on
    strings answers whether some member is related to the string. *)
Lemma comparison_nodeset
    (meth : list (Nodeset.Node P) -> Nodeset.Scalar -> result bool)
    (R : Nodeset.Node P -> string -> Prop) self ns :
  (forall s, exists b, meth self (Nodeset.SStr s) = Ok b /\
     (b = true <-> exists n, n ∈ self /\ Nodeset.is_internal n = false /\
                             R n s)) ->
  exists b, Nodeset.comparison meth self (Nodeset.XNodeSet ns) = Ok b /\
    (b = true <->
     exists n m, n ∈ self /\ m ∈ ns /\
       Nodeset.is_internal n = false /\ Nodeset.is_internal m = false /\
       R n (Nodeset.str m)).
Proof.
  intros Hmeth. simpl. induction ns as [|m ns (b & Hb & IH)].
  - exists false. split; [done|]. split; [done|].
    by intros (n & m & _ & ?%elem_of_nil & _).
  - destruct (Nodeset.is_internal m) eqn:Hint.
    + exists b. split; [done|]. rewrite IH. split.
      * intros (n & m' & Hn & Hm' & ?). exists n, m'.
        split; [done|]. split; [by right|done].
      * intros (n & m' & Hn & [->|Hm']%elem_of_cons & Hni & Hmi & HR);
          [congruence|]. by exists n, m'.
    + destruct (Hmeth (Nodeset.str m)) as (b0 & -> & Hb0). cbn.
      destruct b0.
      * exists true. split; [done|]. split; [|done]. intros _.
        destruct (proj1 Hb0 eq_refl) as (n & Hn & Hni & HR).
        exists n, m. split; [done|]. split; [by left|done].
      * exists b. split; [done|]. rewrite IH. split.
        -- intros (n & m' & Hn & Hm' & ?). exists n, m'.
           split; [done|]. split; [by right|done].
        -- intros (n & m' & Hn & [->|Hm']%elem_of_cons & Hni & Hmi & HR).
           ++ assert (false = true); [|done]. apply Hb0. eauto.
           ++ by exists n, m'.
Qed.

(** X25: Two node-sets compare equal when some non-internal member of the one and
    some non-internal member of the other have the same string form, and
    unequal when some such pair has different string forms; neither
    comparison fails, both are symmetric, and both can hold at once. *)
Theorem nodeset_eq_ne_nodeset self ns :
  exists beq bne,
    Nodeset.__eq__ float_of_str self (Nodeset.XNodeSet ns) = Ok beq /\
    Nodeset.__ne__ float_of_str self (Nodeset.XNodeSet ns) = Ok bne /\
    Nodeset.__eq__ float_of_str ns (Nodeset.XNodeSet self) = Ok beq /\
    Nodeset.__ne__ float_of_str ns (Nodeset.XNodeSet self) = Ok bne /\
    (beq = true <->
     exists n m, n ∈ self /\ m ∈ ns /\
       Nodeset.is_internal n = false /\ Nodeset.is_internal m = false /\
       Nodeset.str n = Nodeset.str m) /\
    (bne = true <->
     exists n m, n ∈ self /\ m ∈ ns /\
       Nodeset.is_internal n = false /\ Nodeset.is_internal m = false /\
       Nodeset.str n <> Nodeset.str m).
Proof.
  unfold Nodeset.__eq__, Nodeset.__ne__.
  destruct (comparison_nodeset (Nodeset.eq_body float_of_str)
              (fun n s => Nodeset.str n = s) self ns
              (eq_body_str self)) as (beq & Heq & Hbeq).
  destruct (comparison_nodeset (Nodeset.ne_body float_of_str)
              (fun n s => Nodeset.str n <> s) self ns
              (ne_body_str self)) as (bne & Hne & Hbne).
  destruct (comparison_nodeset (Nodeset.eq_body float_of_str)
              (fun n s => Nodeset.str n = s) ns self
              (eq_body_str ns)) as (beq' & Heq' & Hbeq').
  destruct (comparison_nodeset (Nodeset.ne_body float_of_str)
              (fun n s => Nodeset.str n <> s) ns self
              (ne_body_str ns)) as (bne' & Hne' & Hbne').
  assert (beq' = beq) as ->.
  { apply eq_true_iff_eq. rewrite Hbeq, Hbeq'.
    split; intros (n & m & ? & ? & ? & ? & ?); exists m, n; by repeat split. }
  assert (bne' = bne) as ->.
  { apply eq_true_iff_eq. rewrite Hbne, Hbne'.
    split; intros (n & m & ? & ? & ? & ? & ?); exists m, n; by repeat split. }
  by exists beq, bne.
Qed.

(** ** What the comparisons can raise *)

Lemma py_float_raises (v : Value) (e : exn) :
  Nodeset.py_float float_of_str v = Raise e ->
  e = TypeError \/ e = ValueError \/
  (e = OverflowError /\ exists z, v = VInt z /\
                                  Py.float_of_int z = Raise OverflowError).
Proof.
  destruct v as [|[]|z|f|s|l|d]; simpl; try (intros [= <-]; auto); try done.
  - unfold Py.float_of_int. destruct (PrimFloat.is_infinity _) eqn:E; [|done].
    intros [= <-]. right. right. split; [done|]. exists z. split; [done|].
    unfold Py.float_of_int. by rewrite E.
  - destruct (float_of_str s); [done|]. intros [= <-]. auto.
Qed.

Lemma overflows_cons n self e : overflows self e -> overflows (n :: self) e.
Proof.
  intros (-> & m & z & Hm & ?). split; [done|]. exists m, z.
  split; [by right|done].
Qed.

Lemma py_float_number_raises (v : Value) (e : exn) :
  Nodeset.is_number v = true ->
  Nodeset.py_float float_of_str v = Raise e ->
  e = OverflowError /\
  exists z, v = VInt z /\ Py.float_of_int z = Raise OverflowError.
Proof.
  intros Hnum Hf. destruct v as [|[]|z|f|s|l|d]; try done.
  destruct (py_float_raises _ _ Hf) as [->|[->|?]]; [| |done];
    simpl in Hf; unfold Py.float_of_int in Hf;
    by destruct (PrimFloat.is_infinity _).
Qed.

Lemma eq_body_raises self (v : Nodeset.Scalar) (e : exn) :
  Nodeset.eq_body float_of_str self v = Raise e -> overflows self e.
Proof.
  induction self as [|n self IH]; simpl; [done|]. intros Hraise.
  destruct (Nodeset.is_internal n); [by apply overflows_cons, IH|].
  destruct (Nodeset.is_number (Nodeset.value n)) eqn:Hnum;
    destruct (Nodeset.py_float float_of_str (Nodeset.value n)) as [x|e0]
      eqn:Hf;
    destruct v as [s|f|b]; cbn in Hraise;
    repeat match type of Hraise with
           | context [if ?c then _ else _] => destruct c
           end;
    try done; try (by apply overflows_cons, IH);
    injection Hraise as <-;
    destruct (py_float_number_raises _ _ Hnum Hf) as (-> & z & Hz & Hov);
    (split; [done|]); exists n, z; (split; [by left|done]).
Qed.

Lemma ne_body_raises self (v : Nodeset.Scalar) (e : exn) :
  Nodeset.ne_body float_of_str self v = Raise e -> overflows self e.
Proof.
  induction self as [|n self IH]; simpl; [done|]. intros Hraise.
  destruct (Nodeset.is_internal n); [by apply overflows_cons, IH|].
  destruct (Nodeset.is_number (Nodeset.value n)) eqn:Hnum;
    destruct (Nodeset.py_float float_of_str (Nodeset.value n)) as [x|e0]
      eqn:Hf;
    destruct v as [s|f|b]; cbn in Hraise;
    repeat match type of Hraise with
           | context [if ?c then _ else _] => destruct c
           end;
    try done; try (by apply overflows_cons, IH);
    injection Hraise as <-;
    destruct (py_float_number_raises _ _ Hnum Hf) as (-> & z & Hz & Hov);
    (split; [done|]); exists n, z; (split; [by left|done]).
Qed.

Lemma ordering_loop_raises (op : float -> float -> bool) self (x : float)
    (e : exn) :
  Nodeset.ordering_loop float_of_str op self x = Raise e -> overflows self e.
Proof.
  induction self as [|n self IH]; simpl; [done|]. intros Hraise.
  destruct (Nodeset.py_float float_of_str (Nodeset.value n)) as [f|e0] eqn:Hf.
  - destruct (op f x); [done|]. by apply overflows_cons, IH.
  - destruct (py_float_raises _ _ Hf) as [->|[->|(-> & z & Hz & Hov)]].
    + by apply overflows_cons, IH.
    + by apply overflows_cons, IH.
    + injection Hraise as <-. split; [done|]. exists n, z.
      split; [by left|done].
Qed.

Lemma ordering_body_raises (op : float -> float -> bool) self
    (v : Nodeset.Scalar) (e : exn) :
  Nodeset.ordering_body float_of_str op self v = Raise e -> overflows self e.
Proof.
  unfold Nodeset.ordering_body.
  destruct (py_float_scalar float_of_str v) as [[f ->] | ->]; [|done].
  apply ordering_loop_raises.
Qed.

Lemma comparison_raises
    (meth : list (Nodeset.Node P) -> Nodeset.Scalar -> result bool) self
    (arg : Nodeset.XPathValue P) (e : exn) :
  (forall v e, meth self v = Raise e -> overflows self e) ->
  Nodeset.comparison meth self arg = Raise e -> overflows self e.
Proof.
  intros Hmeth. destruct arg as [ns|v]; simpl; [|apply Hmeth].
  induction ns as [|m ns IH]; [done|].
  destruct (Nodeset.is_internal m); [done|].
  destruct (meth self (Nodeset.SStr (Nodeset.str m))) as [[]|e0] eqn:Hm;
    cbn; [done|done|]. intros [= <-]. by apply (Hmeth _ _ Hm).
Qed.

(** X26: None of the six comparisons lets a [TypeError] or [ValueError] out; the
    only exception they can raise is the [OverflowError] of [float()] on a
    member whose value is an integer beyond the range of a float. *)
Theorem comparisons_raise_only_overflow self (arg : Nodeset.XPathValue P)
    (e : exn) :
  Nodeset.__eq__ float_of_str self arg = Raise e \/
  Nodeset.__ne__ float_of_str self arg = Raise e \/
  Nodeset.__gt__ float_of_str self arg = Raise e \/
  Nodeset.__lt__ float_of_str self arg = Raise e \/
  Nodeset.__ge__ float_of_str self arg = Raise e \/
  Nodeset.__le__ float_of_str self arg = Raise e ->
  overflows self e.
Proof.
  intros [H0|[H0|[H0|[H0|[H0|H0]]]]]; revert H0; apply comparison_raises;
    intros v e'.
  - apply eq_body_raises.
  - apply ne_body_raises.
  - apply ordering_body_raises.
  - apply ordering_body_raises.
  - apply ordering_body_raises.
  - apply ordering_body_raises.
Qed.

End nodeset_comparisons.

Lemma comparisons_raise_only_overflow_witness :
  let n : Nodeset.Node nat := Nodeset.mkNode 0%nat (VInt (2 ^ 1024)) false "" in
  overflows [n] OverflowError.
Proof.
  apply (comparisons_raise_only_overflow (fun _ => None)
           [Nodeset.mkNode 0%nat (VInt (2 ^ 1024)) false ""]
           (Nodeset.XScalar (Nodeset.SFloat (Py.Z_to_float 1)))).
  do 2 right. left. vm_compute. reflexivity.
Defined.
